(** * Vera: the heuristic misinformation scorer

    A shallow embedding of the class [FalseNewsChecker], which the
    repository holds twice (src/app.py and src/falseNewsChecker.py), and of
    the HTTP handler [run_false_news_check] of src/app.py.

    Conventions of the embedding.
    - A Python [float] is an exact rational ([Q]); rounding of binary64
      arithmetic and the non-finite values (inf, nan) are not modelled.
      Comparisons are the boolean tests [Qltb]/[Qgtb], as in the source.
    - A Python [str] is a [string] of ASCII text; [lower] acts on the
      letters A-Z and leaves every other character unchanged.
    - A Python [int] is a [Z].
    - [random.random()] reads a process-wide generator: the generator is an
      explicit state, threaded through every function that draws from it.
    - [print] appends a line to an explicit output log. *)

From Stdlib Require Import QArith ZArith String Ascii List Bool Lia Lqa.
From Stdlib Require Import DecimalString.
Import ListNotations.

Open Scope string_scope.
Open Scope Q_scope.

(** ** Python primitives on numbers *)

(** [a < b] and [a > b] on floats. *)
Definition Qltb (a b : Q) : bool := negb (Qle_bool b a).
Definition Qgtb (a b : Q) : bool := Qltb b a.

(** [min(a, b)]: Python returns its first argument unless the second is
    strictly smaller. *)
Definition py_min (a b : Q) : Q := if Qltb b a then b else a.

(** Conversion of an [int] operand in a mixed [int * float] product. *)
Definition float_of_int (z : Z) : Q := inject_Z z.

(** ** Python primitives on strings *)

(** [c.lower()] for one ASCII character. *)
Definition lower_char (c : ascii) : ascii :=
  let n := nat_of_ascii c in
  if (65 <=? n)%nat && (n <=? 90)%nat then ascii_of_nat (n + 32) else c.

(** [s.lower()] *)
Fixpoint lower (s : string) : string :=
  match s with
  | EmptyString => EmptyString
  | String c s' => String (lower_char c) (lower s')
  end.

(** [s.startswith(p)] *)
Fixpoint startswith (s p : string) {struct p} : bool :=
  match p with
  | EmptyString => true
  | String c p' =>
      match s with
      | EmptyString => false
      | String d s' => Ascii.eqb d c && startswith s' p'
      end
  end.

(** [sub in s] *)
Fixpoint contains (s sub : string) : bool :=
  startswith s sub ||
  match s with
  | EmptyString => false
  | String _ s' => contains s' sub
  end.

(** [s.endswith(suf)] *)
Fixpoint endswith (s suf : string) : bool :=
  String.eqb s suf ||
  match s with
  | EmptyString => false
  | String _ s' => endswith s' suf
  end.

(** The left-to-right scan behind [s.count(sub)]: a match at the current
    position is counted and its characters are skipped, so that counted
    occurrences never overlap. [skip] is the number of characters still
    covered by the last counted match. *)
Fixpoint count_from (skip : nat) (s sub : string) : nat :=
  match s with
  | EmptyString => 0%nat
  | String _ s' =>
      match skip with
      | S k => count_from k s' sub
      | O =>
          if startswith s sub
          then S (count_from (String.length sub - 1) s' sub)
          else count_from 0 s' sub
      end
  end.

(** [s.count(sub)]; the empty pattern matches between any two characters. *)
Definition count (s sub : string) : Z :=
  match sub with
  | EmptyString => Z.of_nat (String.length s) + 1
  | _ => Z.of_nat (count_from 0 s sub)
  end.

(** ** FalseNewsChecker: configuration (identical in both files) *)

(** [self.sensational_keywords], in the insertion order of the dict. *)
Definition sensational_keywords : list (string * Q) :=
  [ ("shocking", 0.25); ("exclusive", 0.15); ("must see", 0.20);
    ("disaster", 0.10); ("scam", 0.30); ("fake news", -0.5);
    ("truth", 0.05); ("exposed", 0.22); ("viral", 0.18) ].

Definition MISINFO_THRESHOLD : Q := 0.55.
Definition MANIPULATION_THRESHOLD : Q := 0.70.

(** ** FalseNewsChecker._analyze_text_for_bias (identical in both files) *)

(** The loop over [self.sensational_keywords.items()]:
    [bias_score += text.count(keyword) * weight]. *)
Definition keyword_step (text : string) (bias_score : Q) (kw : string * Q) : Q :=
  bias_score + float_of_int (count text (fst kw)) * snd kw.

Definition keyword_frequency (text : string) : Q :=
  fold_left (keyword_step text) sensational_keywords 0.0.

(** ["blogspot" in url or "wordpress" in url or url.endswith(".co")] *)
Definition low_authority_domain (url : string) : bool :=
  contains url "blogspot" || contains url "wordpress" || endswith url ".co".

(** [any(bad_pattern in url for bad_pattern in ["hoax", "conspiracy", "rumor"])] *)
Definition misinformation_pattern (url : string) : bool :=
  existsb (contains url) ["hoax"; "conspiracy"; "rumor"].

(** [bias_score] as it stands just before the normalisation. *)
Definition bias_score (url content : string) : Q :=
  let text := lower (url ++ " " ++ content) in
  let bias_score := keyword_frequency text in
  let bias_score := if low_authority_domain url then bias_score + 0.3 else bias_score in
  let bias_score := if misinformation_pattern url then bias_score + 0.4 else bias_score in
  bias_score.

Definition _analyze_text_for_bias (url content : string) : Q :=
  let final_score := py_min (bias_score url content / 2.5) 1.0 in
  final_score.

(** ** The process-wide random generator *)

(** The state of a deterministic generator is the sequence of values it is
    going to return and the number of values already consumed. *)
Record Generator : Type := mkGenerator {
  draws : nat -> Q;
  position : nat
}.

(** [random.random()]: the next value, and the advanced generator. *)
Definition random (g : Generator) : Q * Generator :=
  (draws g (position g), mkGenerator (draws g) (S (position g))).

(** [random.random()] returns values of the half-open interval [0, 1). *)
Definition uniform (g : Generator) : Prop :=
  forall n : nat, 0 <= draws g n /\ draws g n < 1.

(** ** FalseNewsChecker._analyze_image_for_manipulation (identical in both files) *)

(** [manipulation_score] just before the clamp, with the value [r] returned
    by [random.random()] made explicit. *)
Definition manipulation_score (r : Q) (file_size_kb : Z) (noise_factor : Q) : Q :=
  let manipulation_score := 0.0 in
  let manipulation_score := manipulation_score + noise_factor * 0.45 in
  let manipulation_score :=
    if (file_size_kb <? 100)%Z && Qgtb noise_factor 0.5
    then manipulation_score + 0.35 else manipulation_score in
  let manipulation_score :=
    if Qltb r noise_factor
    then manipulation_score + 0.20 else manipulation_score in
  manipulation_score.

Definition image_score_of_draw (r : Q) (file_size_kb : Z) (noise_factor : Q) : Q :=
  py_min (manipulation_score r file_size_kb noise_factor) 1.0.

Definition _analyze_image_for_manipulation
    (file_size_kb : Z) (noise_factor : Q) (g : Generator) : Q * Generator :=
  let (r, g') := random g in
  (image_score_of_draw r file_size_kb noise_factor, g').

(** ** Rendering: the format specifications [:.2f] and [{int}] *)

(** Nearest integer, ties to the even one. *)
Definition round_half_even (q : Q) : Z :=
  let n := Qnum q in
  let d := Zpos (Qden q) in
  let f := (n / d)%Z in
  match (2 * (n mod d) ?= d)%Z with
  | Lt => f
  | Gt => (f + 1)%Z
  | Eq => if Z.even f then f else (f + 1)%Z
  end.

Definition digit_char (n : Z) : ascii := ascii_of_nat (48 + Z.to_nat n).

Definition str_of_nonneg (z : Z) : string :=
  NilZero.string_of_uint (N.to_uint (Z.to_N z)).

(** [f"{x:.2f}"]: sign, integer part, a point, two digits. *)
Definition format_2f (x : Q) : string :=
  let c := Z.abs (round_half_even (x * 100)) in
  (if Qltb x 0 then "-" else "") ++
  str_of_nonneg (c / 100) ++ "." ++
  String (digit_char ((c mod 100) / 10)) (String (digit_char (c mod 10)) "").

(** [f"{n}"] for an [int]. *)
Definition str_of_int (z : Z) : string :=
  (if (z <? 0)%Z then "-" else "") ++ str_of_nonneg (Z.abs z).

(** ** FalseNewsChecker.check: what both files share *)

Inductive Verdict : Type := Verified | Caution | HighRisk.

(** The three label strings, as both files spell them. *)
Definition verdict_label (v : Verdict) : string :=
  match v with
  | Verified => "VERIFIED (Low Risk)"
  | Caution => "CAUTION ADVISED (High Bias/Uncertainty) ⚠️"
  | HighRisk => "HIGH MISINFORMATION RISK 🚨"
  end.

(** The [if]/[elif] chain over [final_misinfo_score]. *)
Definition select_verdict (final_misinfo_score : Q) : Verdict :=
  let verdict := Verified in
  if Qgtb final_misinfo_score MANIPULATION_THRESHOLD then HighRisk
  else if Qgtb final_misinfo_score MISINFO_THRESHOLD then Caution
  else verdict.

(** [if image_features:] a 2-tuple is truthy, [None] is not. *)
Definition truthy {A : Type} (image_features : option A) : bool :=
  match image_features with Some _ => true | None => false end.

(** [image_score]: 0.0 unless image features are given; only then is the
    generator consulted. *)
Definition image_score_of
    (image_features : option (Z * Q)) (g : Generator) : Q * Generator :=
  match image_features with
  | Some (file_size_kb, noise_factor) =>
      _analyze_image_for_manipulation file_size_kb noise_factor g
  | None => (0.0, g)
  end.

(** The numbers [check] computes before it renders them. *)
Record Scores : Type := mkScores {
  text_of : Q;
  image_of : Q;
  final_of : Q
}.

(** ** src/app.py *)

Module App.

(** The dict returned by [check]. *)
Record Result : Type := mkResult {
  verdict : string;
  score : string;
  text_score : string;
  image_score : string
}.

Definition final_misinfo_score
    (text_score image_score : Q) (image_features : option (Z * Q)) : Q :=
  let weight_image := if truthy image_features then 0.4 else 0.0 in
  (text_score * 0.6) + (image_score * weight_image)
  + (text_score * (0.4 - weight_image)).

Definition scores (url : string) (image_features : option (Z * Q))
    (content : string) (g : Generator) : Scores * Generator :=
  let text_score := _analyze_text_for_bias url content in
  let (image_score, g') := image_score_of image_features g in
  (mkScores text_score image_score
     (final_misinfo_score text_score image_score image_features), g').

Definition check (url : string) (image_features : option (Z * Q))
    (content : string) (g : Generator) : Result * Generator :=
  let (s, g') := scores url image_features content g in
  let verdict := verdict_label (select_verdict (final_of s)) in
  (mkResult verdict (format_2f (final_of s))
            (format_2f (text_of s)) (format_2f (image_of s)), g').

End App.

(** ** src/falseNewsChecker.py *)

Module Cli.

Definition newline : string := String (ascii_of_nat 10) "".

Definition final_misinfo_score
    (text_score image_score : Q) (image_features : option (Z * Q)) : Q :=
  (text_score * 0.6)
  + (if truthy image_features then image_score * 0.4 else text_score).

Definition scores (url : string) (image_features : option (Z * Q))
    (content : string) (g : Generator) : Scores * Generator :=
  let text_score := _analyze_text_for_bias url content in
  let (image_score, g') := image_score_of image_features g in
  (mkScores text_score image_score
     (final_misinfo_score text_score image_score image_features), g').

(** The line printed inside [if image_features:]. *)
Definition image_line
    (image_features : option (Z * Q)) (image_score : Q) : list string :=
  match image_features with
  | Some (file_size_kb, noise_factor) =>
      ["Image Analysis (Size: " ++ str_of_int file_size_kb ++ "KB, Noise: "
       ++ format_2f noise_factor ++ "): " ++ format_2f image_score]
  | None => []
  end.

(** What [check] hands back, and what it has printed on the way. *)
Record Report : Type := mkReport {
  returned : string;
  printed : list string
}.

Definition check (url : string) (image_features : option (Z * Q))
    (content : string) (g : Generator) : Report * Generator :=
  let (s, g') := scores url image_features content g in
  let url_line := newline ++ "--- Checking URL: " ++ url ++ " ---" in
  let text_line := "Text Bias Score: " ++ format_2f (text_of s) in
  let verdict := verdict_label (select_verdict (final_of s)) in
  (mkReport
     ("Final Misinformation Score: " ++ format_2f (final_of s)
        ++ " | VERDICT: " ++ verdict)
     (url_line :: image_line image_features (image_of s) ++ [text_line])%list,
   g').

End Cli.

(** ** src/app.py: the endpoint /check *)

(** The values [request.get_json()] can hold. JSON numbers are integers of
    any size and finite decimals. *)
#[local] Set Warnings "-register-all".
Inductive PyValue : Type :=
| PyNone
| PyBool (b : bool)
| PyInt (z : Z)
| PyFloat (q : Q)
| PyStr (s : string)
| PyList (l : list PyValue)
| PyDict (d : list (string * PyValue)).

#[local] Set Warnings "register-all".

Inductive Exception : Type := ValueError | TypeError | OverflowError.

Inductive Outcome (A : Type) : Type :=
| Returns (a : A)
| Raises (e : Exception).
Arguments Returns {A} a.
Arguments Raises {A} e.

(** [d.get(key, default)] *)
Fixpoint dict_get (d : list (string * PyValue)) (key : string)
    (default : PyValue) : PyValue :=
  match d with
  | [] => default
  | (k, v) :: d' => if String.eqb k key then v else dict_get d' key default
  end.

(** The largest magnitude [float(n)] accepts for an [int] n: beyond it the
    nearest binary64 value would be infinite and Python raises. *)
Definition FLOAT_INT_LIMIT : Z := (2 ^ 1024 - 2 ^ 970)%Z.

Section Endpoint.

(** The parsers behind [int(s)] and [float(s)] for a [str] argument are
    the interpreter's; [None] stands for the [ValueError] they raise on a
    string that is no numeral. *)
Variable int_of_str : string -> option Z.
Variable float_of_str : string -> option Q.

(** [int(v)] *)
Definition py_int (v : PyValue) : Outcome Z :=
  match v with
  | PyNone => Raises TypeError
  | PyBool b => Returns (if b then 1 else 0)%Z
  | PyInt z => Returns z
  | PyFloat q => Returns (Z.quot (Qnum q) (Zpos (Qden q)))
  | PyStr s =>
      match int_of_str s with
      | Some z => Returns z
      | None => Raises ValueError
      end
  | PyList _ | PyDict _ => Raises TypeError
  end.

(** [float(v)] *)
Definition py_float (v : PyValue) : Outcome Q :=
  match v with
  | PyNone => Raises TypeError
  | PyBool b => Returns (if b then 1 else 0)
  | PyInt z =>
      if (Z.abs z <? FLOAT_INT_LIMIT)%Z then Returns (float_of_int z)
      else Raises OverflowError
  | PyFloat q => Returns q
  | PyStr s =>
      match float_of_str s with
      | Some q => Returns q
      | None => Raises ValueError
      end
  | PyList _ | PyDict _ => Raises TypeError
  end.

Definition is_none (v : PyValue) : bool :=
  match v with PyNone => true | _ => false end.

(** [except (ValueError, TypeError): pass] leaves [image_features] at
    [None]; any other exception leaves the handler. *)
Definition except_value_or_type_error
    (e : Exception) : Outcome (option (Z * Q)) :=
  match e with
  | ValueError | TypeError => Returns None
  | OverflowError => Raises OverflowError
  end.

(** The [try] block that builds [image_features]. *)
Definition coerce_image_features
    (file_size_kb noise_factor : PyValue) : Outcome (option (Z * Q)) :=
  if negb (is_none file_size_kb) && negb (is_none noise_factor) then
    match py_int file_size_kb with
    | Raises e => except_value_or_type_error e
    | Returns size =>
        match py_float noise_factor with
        | Raises e => except_value_or_type_error e
        | Returns noise => Returns (Some (size, noise))
        end
    end
  else Returns None.

(** [run_false_news_check]: the record handed to [jsonify], or the
    exception that leaves the handler. [check] concatenates [url] and
    [content] with a [str], which raises [TypeError] on anything else. *)
Definition run_false_news_check (data : list (string * PyValue))
    (g : Generator) : Outcome App.Result * Generator :=
  let url := dict_get data "url" (PyStr "URL Not Provided") in
  let content := dict_get data "content" (PyStr "") in
  let file_size_kb := dict_get data "file_size_kb" PyNone in
  let noise_factor := dict_get data "noise_factor" PyNone in
  match coerce_image_features file_size_kb noise_factor with
  | Raises e => (Raises e, g)
  | Returns image_features =>
      match url, content with
      | PyStr url, PyStr content =>
          let (result, g') := App.check url image_features content g in
          (Returns result, g')
      | _, _ => (Raises TypeError, g)
      end
  end.

End Endpoint.

(** ** The order of the three verdicts *)

(** The verdicts by increasing risk. *)
Definition verdict_rank (v : Verdict) : nat :=
  match v with
  | Verified => 0
  | Caution => 1
  | HighRisk => 2
  end.

(** ** More Python primitives *)

(** The left-to-right scan behind [s.replace(old, new)] for a non-empty
    [old]: a match is replaced and its characters are skipped. *)
Fixpoint replace_from (skip : nat) (s old new : string) : string :=
  match s with
  | EmptyString => EmptyString
  | String c s' =>
      match skip with
      | S k => replace_from k s' old new
      | O =>
          if startswith s old
          then new ++ replace_from (String.length old - 1) s' old new
          else String c (replace_from 0 s' old new)
      end
  end.

(** [new] after every character: what replacing the empty string does. *)
Fixpoint insert_after_each (s new : string) : string :=
  match s with
  | EmptyString => EmptyString
  | String c s' => String c (new ++ insert_after_each s' new)
  end.

(** [s.replace(old, new)] *)
Definition replace (s old new : string) : string :=
  match old with
  | EmptyString => new ++ insert_after_each s new
  | _ => replace_from 0 s old new
  end.






(** [v.get(key, default)] on any value: only a dict has the method, on
    anything else the call raises ([None]). *)
Definition py_get (v : PyValue) (key : string) (default : PyValue)
    : option PyValue :=
  match v with
  | PyDict d => Some (dict_get d key default)
  | _ => None
  end.

(** [for x in v]: the items of a list, the characters of a string, the
    keys of a dict; anything else is not iterable ([None]). *)
Definition py_iter (v : PyValue) : option (list PyValue) :=
  match v with
  | PyList l => Some l
  | PyStr s => Some (map (fun c => PyStr (String c "")) (list_ascii_of_string s))
  | PyDict d => Some (map (fun kv => PyStr (fst kv)) d)
  | _ => None
  end.

(** ** src/Business.py: get_news *)

(** A dict with string keys, in insertion order. *)
Definition Dict : Type := list (string * PyValue).

(** [newsapi.get_top_headlines(category=, language=, country=, page_size=)]
    of the third-party client: the decoded answer, or [None] when the call
    raises. *)
Definition NewsApiClient : Type :=
  string -> string -> string -> Z -> option PyValue.

(** The category sent to the service. *)
Definition api_category_of (category : string) : string :=
  let api_category := "general" in
  if existsb (String.eqb category)
       ["business"; "entertainment"; "health"; "science"; "sports"; "technology"]
  then category else api_category.

(** The dict appended for one article of the answer; [None] when building
    it raises: the article is no dict, or its "source" is no dict. *)
Definition article_entry (category : string) (article : PyValue) : option Dict :=
  match article with
  | PyDict a =>
      match py_get (dict_get a "source" (PyDict [])) "name" (PyStr "Unknown Source") with
      | Some source_name =>
          Some [ ("title", dict_get a "title" (PyStr "No Title"));
                 ("url", dict_get a "url" (PyStr "#"));
                 ("source", source_name);
                 ("description",
                  dict_get a "description" (dict_get a "content" (PyStr "")));
                 ("image_url", dict_get a "urlToImage" PyNone);
                 ("category", PyStr (replace (lower category) " " "-")) ]
      | None => None
      end
  | _ => None
  end.

(** The loop that fills [articles_list]; the first entry that raises ends
    it. *)
Fixpoint article_entries (category : string) (articles : list PyValue)
    : option (list Dict) :=
  match articles with
  | [] => Some []
  | article :: rest =>
      match article_entry category article with
      | Some entry =>
          match article_entries category rest with
          | Some entries => Some (entry :: entries)
          | None => None
          end
      | None => None
      end
  end.

(** The body of the [try] block: [None] stands for any exception, which
    [except Exception] catches. *)
Definition fetch_articles (client : NewsApiClient)
    (category country : string) (pagesize : Z) : option (list Dict) :=
  match client (api_category_of category) "en" country pagesize with
  | Some top_headlines =>
      match py_get top_headlines "articles" (PyList []) with
      | Some articles =>
          match py_iter articles with
          | Some items => article_entries category items
          | None => None
          end
      | None => None
      end
  | None => None
  end.

(** [get_news]; [newsapi] is [None] when the client could not be built. What
    the function prints is left out. *)
Definition get_news (newsapi : option NewsApiClient)
    (category country : string) (pagesize : Z) : list Dict :=
  match newsapi with
  | None =>
      [ [ ("title", PyStr "API Client Failed to Initialize");
          ("source", PyStr "System Error");
          ("url", PyStr "#");
          ("category", PyStr "Error") ] ]
  | Some client =>
      match fetch_articles client category country pagesize with
      | Some articles_list => articles_list
      | None =>
          [ [ ("title", PyStr ("Error fetching " ++ category ++ " news"));
              ("source", PyStr "API Error");
              ("url", PyStr "#");
              ("category", PyStr "Error") ] ]
      end
  end.

(** ** src/app.py: the category pages *)

Definition CATEGORIES : list string :=
  [ "Home"; "Business"; "Entertainment"; "Health";
    "Lifestyle"; "Science"; "Sports"; "World News" ].

(** The arguments handed to [render_template]. *)
Record Page : Type := mkPage {
  template : string;
  articles : list Dict;
  current_category : string;
  categories : list string;
  current_date : string
}.

(** [render_category_page]; [today] is
    [datetime.now().strftime("%B %d, %Y")]. *)
Definition render_category_page (newsapi : option NewsApiClient) (today : string)
    (category_name category_slug : string) : Page :=
  let api_slug :=
    if negb (existsb (String.eqb category_slug) ["World News"; "Home"])
    then category_slug else "general" in
  let news_articles := get_news newsapi api_slug "us" 15 in
  mkPage "index.html" news_articles category_name CATEGORIES today.


(** ** Truth values, whitespace, joining and splitting *)

(** [bool(v)]: what [if not v] tests. *)
Definition py_truthy (v : PyValue) : bool :=
  match v with
  | PyNone => false
  | PyBool b => b
  | PyInt z => negb (z =? 0)%Z
  | PyFloat q => negb (Qeq_bool q 0)
  | PyStr s => negb (String.eqb s "")
  | PyList l => match l with [] => false | _ :: _ => true end
  | PyDict d => match d with [] => false | _ :: _ => true end
  end.

(** [c.isspace()] for an ASCII character. *)
Definition is_space (c : ascii) : bool :=
  let n := nat_of_ascii c in
  ((9 <=? n)%nat && (n <=? 13)%nat) || ((28 <=? n)%nat && (n <=? 32)%nat).

(** [s.lstrip()] *)
Fixpoint lstrip (s : string) : string :=
  match s with
  | EmptyString => EmptyString
  | String c s' => if is_space c then lstrip s' else s
  end.

(** [s.rstrip()] *)
Fixpoint rstrip (s : string) : string :=
  match s with
  | EmptyString => EmptyString
  | String c s' =>
      match rstrip s' with
      | EmptyString => if is_space c then EmptyString else String c EmptyString
      | r => String c r
      end
  end.

(** [s.strip()] *)
Definition strip (s : string) : string := rstrip (lstrip s).

(** [sep.join(l)] *)
Fixpoint join (sep : string) (l : list string) : string :=
  match l with
  | [] => EmptyString
  | [x] => x
  | x :: rest => x ++ sep ++ join sep rest
  end.

(** [s.split(' ')[0]]: what stands before the first space. *)
Fixpoint before_first_space (s : string) : string :=
  match s with
  | EmptyString => EmptyString
  | String c s' =>
      if Ascii.eqb c " " then EmptyString else String c (before_first_space s')
  end.

(** [x or default] for a string [x]. *)
Definition or_default (x default : string) : string :=
  if String.eqb x "" then default else x.

(** ** src/app.py: summarize_article and /api/summarize *)

(** What the article library has extracted; [publish_date] holds
    [str(article.publish_date)] when there is a date. *)
Record Article : Type := mkArticle {
  article_title : string;
  article_authors : list string;
  article_summary : string;
  article_publish_date : option string
}.

(** How the calls of the [try] block end for a url: one of them raises
    [ArticleException] or another exception (with its message), the
    download leaves [article.html] empty, or all of them succeed. *)
Inductive ArticleRun : Type :=
| RaisesArticleException (message : string)
| RaisesOtherException (message : string)
| EmptyHtml
| Extracted (article : Article).

Section Summaries.

(** The article library. *)
Variable run_article : PyValue -> ArticleRun.

(** [summarize_article]: the data dict and the status code. *)
Definition summarize_article (url : PyValue) : Dict * Z :=
  if negb (py_truthy url) then
    ([("error", PyStr "URL cannot be empty.")], 400%Z)
  else
    match run_article url with
    | EmptyHtml =>
        ([("error",
           PyStr "Failed to download article content. The URL might be inaccessible or blocking automated access.")],
         400%Z)
    | Extracted article =>
        ([ ("title",
            PyStr (or_default (article_title article) "No Title Extracted"));
           ("authors",
            PyStr (or_default (join ", " (article_authors article)) "N/A"));
           ("summary",
            PyStr (or_default (article_summary article)
                     "Could not generate summary."));
           ("date",
            PyStr (match article_publish_date article with
                   | Some rendered => before_first_space rendered
                   | None => "N/A"
                   end)) ],
         200%Z)
    | RaisesArticleException e =>
        ([("error",
           PyStr ("Could not process article (ArticleException). Details: " ++ e))],
         400%Z)
    | RaisesOtherException e =>
        ([("error", PyStr ("An unexpected error occurred: " ++ e))], 500%Z)
    end.

(** [api_summarize]: [is_json] is [request.is_json], [data] the decoded
    JSON object. *)
Definition api_summarize (is_json : bool) (data : Dict) : Dict * Z :=
  if negb is_json then ([("error", PyStr "Request must be JSON")], 400%Z)
  else
    let url := dict_get data "url" PyNone in
    if negb (py_truthy url) then
      ([("error", PyStr "Missing URL in request.")], 400%Z)
    else summarize_article url.

End Summaries.

(** ** src/app.py: get_sentiment_prediction and /api/sentiment *)

Section Sentiment.

(** The fitted vectorizer and classifier: the label predicted for a text. *)
Variable predict : string -> Z.

(** [get_sentiment_prediction]; [None] stands for the [AttributeError] of
    [text.strip()] on a value that is no string. *)
Definition get_sentiment_prediction (text : PyValue) : option Dict :=
  let not_available :=
    [ ("sentiment", PyStr "N/A"); ("emoji", PyStr "❓");
      ("color", PyStr "text-gray-500") ] in
  if negb (py_truthy text) then Some not_available
  else
    match text with
    | PyStr s =>
        if negb (py_truthy (PyStr (strip s))) then Some not_available
        else
          let prediction := predict s in
          if (prediction =? 1)%Z then
            Some [ ("sentiment", PyStr "Positive"); ("emoji", PyStr "😄");
                   ("color", PyStr "text-green-500") ]
          else if (prediction =? -1)%Z then
            Some [ ("sentiment", PyStr "Negative"); ("emoji", PyStr "😠");
                   ("color", PyStr "text-red-500") ]
          else
            Some [ ("sentiment", PyStr "Neutral"); ("emoji", PyStr "😐");
                   ("color", PyStr "text-yellow-500") ]
    | _ => None
    end.


End Sentiment.

(** ** src/falseNewsChecker.py: the command-line program *)

(** The terminal: the lines still to be typed, and what has been written,
    one entry per call of [print] or [input]. *)
Record Console : Type := mkConsole {
  stdin : list string;
  stdout : list string
}.

(** [print(line)] *)
Definition print (line : string) (c : Console) : Console :=
  mkConsole (stdin c) (stdout c ++ [line])%list.

(** [input(prompt)]: writes the prompt and reads a line; [None] stands for
    the [EOFError] raised when no line is left. *)
Definition input (prompt : string) (c : Console) : option (string * Console) :=
  match stdin c with
  | [] => None
  | line :: rest => Some (line, mkConsole rest (stdout c ++ [prompt])%list)
  end.

(** [s * n] *)
Fixpoint repeat_string (s : string) (n : nat) : string :=
  match n with
  | O => EmptyString
  | S k => s ++ repeat_string s k
  end.

Section CommandLine.

(** The parsers behind [int(s)] and [float(s)], as for the endpoint; on a
    [str] they raise nothing but [ValueError]. *)
Variable int_of_str : string -> option Z.
Variable float_of_str : string -> option Q.

Definition invalid_image_input : string :=
  "Invalid input for image features. Proceeding with Text-Only analysis.".

(** The [try] block under [if image_check == 'yes']: the image features
    and the console after it, or [None] for [EOFError]. *)
Definition ask_image_features (c : Console)
    : option (option (Z * Q) * Console) :=
  match input "Enter simulated File Size in KB (e.g., 100): " c with
  | None => None
  | Some (size_line, c) =>
      match int_of_str size_line with
      | None => Some (None, print invalid_image_input c)
      | Some file_size_kb =>
          match input "Enter simulated Noise Factor (0.0 to 1.0, e.g., 0.85): " c with
          | None => None
          | Some (noise_line, c) =>
              match float_of_str noise_line with
              | None => Some (None, print invalid_image_input c)
              | Some noise_factor => Some (Some (file_size_kb, noise_factor), c)
              end
          end
      end
  end.

(** From "ANALYSIS INITIATED" to the end: runs [check] and prints what it
    returns between two lines of stars. [time.sleep(1)] is left out. *)
Definition run_analysis (user_url user_content : string)
    (user_image_features : option (Z * Q)) (c : Console) (g : Generator)
    : Console * Generator :=
  let c := print (Cli.newline ++ repeat_string "=" 50) c in
  let c := print "ANALYSIS INITIATED" c in
  let c := print (repeat_string "=" 50) c in
  let (report, g') := Cli.check user_url user_image_features user_content g in
  let c := mkConsole (stdin c) (stdout c ++ Cli.printed report)%list in
  let c := print (Cli.newline ++ repeat_string "*" 50) c in
  let c := print (Cli.returned report) c in
  let c := print (repeat_string "*" 50) c in
  (c, g').

(** The block under [if __name__ == '__main__']. *)
Definition main (c : Console) (g : Generator) : option (Console * Generator) :=
  let c := print (Cli.newline ++ "--- False News Checker (Simulated Input) ---") c in
  match input "Enter the URL to check (e.g., https://conspiracyblog.co/shocking-news): " c with
  | None => None
  | Some (user_url, c) =>
      match input "Enter the article content (or leave blank): " c with
      | None => None
      | Some (user_content, c) =>
          let c := print (Cli.newline ++ "--- Simulated Image Features (For testing Deepfake/Manipulation) ---") c in
          let c := print "> NOTE: These are *simulated* features, not actual file analysis." c in
          match input "Do you want to include image analysis? (yes/no): " c with
          | None => None
          | Some (answer, c) =>
              let image_check := lower answer in
              if String.eqb image_check "yes" then
                match ask_image_features c with
                | None => None
                | Some (user_image_features, c) =>
                    Some (run_analysis user_url user_content user_image_features c g)
                end
              else Some (run_analysis user_url user_content None c g)
          end
      end
  end.

End CommandLine.

(** ** Vocabulary of the further properties *)

(** Every character of [s] passes the test [p]. *)
Fixpoint all_chars (p : ascii -> bool) (s : string) : bool :=
  match s with
  | EmptyString => true
  | String c s' => p c && all_chars p s'
  end.

(** The seven categories the news service knows. *)
Definition service_categories : list string :=
  [ "general"; "business"; "entertainment"; "health"; "science"; "sports";
    "technology" ].

(** An article from which [get_news] can build an entry: a dict whose
    "source", when present, is a dict. *)
Definition well_formed_article (article : PyValue) : bool :=
  match article with
  | PyDict a =>
      match dict_get a "source" (PyDict []) with
      | PyDict _ => true
      | _ => false
      end
  | _ => false
  end.

(** The entry [get_news] returns alone when the fetch fails. *)
Definition fetch_error_entry (category : string) : Dict :=
  [ ("title", PyStr ("Error fetching " ++ category ++ " news"));
    ("source", PyStr "API Error");
    ("url", PyStr "#");
    ("category", PyStr "Error") ].

Definition not_space (c : ascii) : bool := negb (Ascii.eqb c " ").



(** The value under "sentiment" in a result of the sentiment endpoint. *)
Definition sentiment_of (result : Dict) : PyValue :=
  dict_get result "sentiment" PyNone.

(** The answer of the sentiment functions for a text without content. *)
Definition sentiment_not_available : Dict :=
  [ ("sentiment", PyStr "N/A"); ("emoji", PyStr "❓");
    ("color", PyStr "text-gray-500") ].

(** The last three entries [main] writes: the result between stars. *)
Definition closing_lines (final_result : string) : list string :=
  [ Cli.newline ++ repeat_string "*" 50; final_result; repeat_string "*" 50 ].

(** [main] has run [check] on the given arguments: it ended with [remaining]
    lines unread, the generator as [check] left it, and the result of
    [check] written between two lines of stars at the end of the output. *)
Definition ran_check (outcome : option (Console * Generator))
    (url : string) (image_features : option (Z * Q)) (content : string)
    (g : Generator) (remaining : list string) : Prop :=
  exists out : list string,
    outcome
    = Some (mkConsole remaining
              (out ++ closing_lines
                        (Cli.returned (fst (Cli.check url image_features content g))))%list,
            snd (Cli.check url image_features content g)).

(** ** Vocabulary of the properties *)

(** A generator that returns [r] on every call. *)
Definition constant_generator (r : Q) : Generator := mkGenerator (fun _ => r) 0.

Definition is_digit (c : ascii) : bool :=
  let n := nat_of_ascii c in (48 <=? n)%nat && (n <=? 57)%nat.

Fixpoint all_digits (s : string) : bool :=
  match s with
  | EmptyString => true
  | String c s' => is_digit c && all_digits s'
  end.

(** A point followed by exactly two digits, and nothing after them. *)
Definition is_fraction (s : string) : bool :=
  match s with
  | String p (String d1 (String d2 EmptyString)) =>
      Ascii.eqb p "." && is_digit d1 && is_digit d2
  | _ => false
  end.

(** One digit or more, then [is_fraction]. *)
Fixpoint digits_then_fraction (s : string) : bool :=
  match s with
  | EmptyString => false
  | String c s' => is_digit c && (is_fraction s' || digits_then_fraction s')
  end.

(** The shape of a number rendered with exactly two decimal digits: an
    optional minus sign, the integer part, a point, two digits. *)
Definition two_decimals (s : string) : bool :=
  match s with
  | String c s' =>
      if Ascii.eqb c "-" then digits_then_fraction s' else digits_then_fraction s
  | EmptyString => false
  end.

Definition is_lowercase_letter (c : ascii) : bool :=
  let n := nat_of_ascii c in (97 <=? n)%nat && (n <=? 122)%nat.

(** No character of [s] is one of a-z. *)
Fixpoint no_lowercase (s : string) : bool :=
  match s with
  | EmptyString => true
  | String c s' => negb (is_lowercase_letter c) && no_lowercase s'
  end.

(** * Properties *)

(** ** Comparisons and the clamp *)

Lemma Qltb_true (a b : Q) : Qltb a b = true <-> a < b.
Proof.
  unfold Qltb. rewrite negb_true_iff.
  split; intro H.
  - apply Qnot_le_lt. intro L. apply Qle_bool_iff in L. congruence.
  - destruct (Qle_bool b a) eqn:E; [|reflexivity].
    apply Qle_bool_iff in E. exfalso. apply (Qlt_not_le _ _ H E).
Qed.

Lemma Qltb_false (a b : Q) : Qltb a b = false <-> b <= a.
Proof.
  unfold Qltb. rewrite negb_false_iff. apply Qle_bool_iff.
Qed.

Lemma py_min_upper (a : Q) : py_min a 1.0 <= 1.
Proof.
  unfold py_min. destruct (Qltb 1.0 a) eqn:E.
  - compute. discriminate.
  - apply Qltb_false in E. lra.
Qed.

Lemma py_min_below (a : Q) : a <= 1 -> py_min a 1.0 = a.
Proof.
  intro H. unfold py_min.
  destruct (Qltb 1.0 a) eqn:E; [|reflexivity].
  apply Qltb_true in E. lra.
Qed.

Lemma py_min_lower (a : Q) : 0 <= a -> 0 <= py_min a 1.0.
Proof.
  intro H. unfold py_min. destruct (Qltb 1.0 a); lra.
Qed.

Lemma constant_generator_uniform (r : Q) :
  0 <= r -> r < 1 -> uniform (constant_generator r).
Proof. intros H0 H1 n. simpl. split; assumption. Qed.

(** ** The text score *)

(** C4. For every url and content the text score is at most 1.0: the upper
    clamp always applies. No lower clamp exists: content that repeats the
    negative-weight phrase "fake news" gets a strictly negative score. *)
Theorem text_score_clamped_above_only :
  (forall url content : string, _analyze_text_for_bias url content <= 1) /\
  (exists url content : string, _analyze_text_for_bias url content < 0).
Proof.
  split.
  - intros url content. unfold _analyze_text_for_bias. apply py_min_upper.
  - exists "", "fake news fake news". vm_compute. reflexivity.
Qed.

(** C8. The url "scamscamscam" with empty content holds three
    non-overlapping occurrences of "scam" and triggers no domain penalty;
    its text score is min(3*0.30/2.5, 1.0), which is 0.36. *)
Theorem text_score_scam_three_times :
  count (lower ("scamscamscam" ++ " " ++ "")) "scam" = 3%Z /\
  low_authority_domain "scamscamscam" = false /\
  misinformation_pattern "scamscamscam" = false /\
  bias_score "scamscamscam" "" == 3 * 0.30 /\
  _analyze_text_for_bias "scamscamscam" "" == py_min (3 * 0.30 / 2.5) 1.0 /\
  _analyze_text_for_bias "scamscamscam" "" == 0.36.
Proof.
  repeat split; vm_compute; reflexivity.
Qed.

(** ** The image score *)

Lemma manipulation_score_nonneg (r : Q) (file_size_kb : Z) (noise_factor : Q) :
  0 <= noise_factor -> 0 <= manipulation_score r file_size_kb noise_factor.
Proof.
  intro H. unfold manipulation_score.
  destruct ((file_size_kb <? 100)%Z && Qgtb noise_factor 0.5);
    destruct (Qltb r noise_factor); lra.
Qed.

(** C2, as amended. For every file size, noise factor and state of the
    generator the image score is at most 1; it is at least 0 whenever the
    noise factor is not negative. *)
Theorem image_score_range (file_size_kb : Z) (noise_factor : Q) (g : Generator) :
  fst (_analyze_image_for_manipulation file_size_kb noise_factor g) <= 1 /\
  (0 <= noise_factor ->
   0 <= fst (_analyze_image_for_manipulation file_size_kb noise_factor g)).
Proof.
  unfold _analyze_image_for_manipulation, image_score_of_draw. simpl.
  split.
  - apply py_min_upper.
  - intro H. apply py_min_lower. apply manipulation_score_nonneg. exact H.
Qed.

Lemma image_score_range_witness :
  0 <= 0.9 /\
  0 <= fst (_analyze_image_for_manipulation 50 0.9 (constant_generator 0.5)) /\
  fst (_analyze_image_for_manipulation 50 0.9 (constant_generator 0.5)) <= 1.
Proof.
  assert (H : 0 <= 0.9) by (vm_compute; discriminate).
  split; [exact H|].
  destruct (image_score_range 50 0.9 (constant_generator 0.5)) as [Hup Hlow].
  split; [apply Hlow; exact H | exact Hup].
Defined.

(** C2, as stated, fails: a negative noise factor is scaled by 0.45, meets
    neither additive branch, and the clamp only caps the top. *)
Lemma image_score_negative_noise :
  fst (_analyze_image_for_manipulation 200 (-1) (constant_generator 0.5)) == -0.45 /\
  ~ (0 <= fst (_analyze_image_for_manipulation 200 (-1) (constant_generator 0.5)) /\
     fst (_analyze_image_for_manipulation 200 (-1) (constant_generator 0.5)) <= 1).
Proof.
  split.
  - vm_compute. reflexivity.
  - intros [H _]. vm_compute in H. apply H. reflexivity.
Qed.

Lemma manipulation_score_at_zero (r : Q) (file_size_kb : Z) (noise_factor : Q) :
  0 <= r -> noise_factor == 0 ->
  Qltb r noise_factor = false /\
  manipulation_score r file_size_kb noise_factor == 0.
Proof.
  intros H0 Hn.
  assert (E : Qltb r noise_factor = false) by (apply Qltb_false; lra).
  assert (F : Qgtb noise_factor 0.5 = false)
    by (unfold Qgtb; apply Qltb_false; lra).
  split; [exact E|].
  unfold manipulation_score. rewrite E, F, andb_false_r. lra.
Qed.

Lemma manipulation_score_at_one (r : Q) (file_size_kb : Z) (noise_factor : Q) :
  r < 1 -> noise_factor == 1 ->
  Qltb r noise_factor = true /\
  manipulation_score r file_size_kb noise_factor
  == (if (file_size_kb <? 100)%Z then 0.45 + 0.35 else 0.45) + 0.20.
Proof.
  intros H1 Hn.
  assert (E : Qltb r noise_factor = true) by (apply Qltb_true; lra).
  assert (F : Qgtb noise_factor 0.5 = true)
    by (unfold Qgtb; apply Qltb_true; lra).
  split; [exact E|].
  unfold manipulation_score. rewrite E, F, andb_true_r.
  destruct (file_size_kb <? 100)%Z; lra.
Qed.

(** C6. With the draw [r] of [random.random()] an explicit input in [0, 1):
    at noise factor 0 the test [r < noise_factor] fails for every r and the
    0.20 term is never added; at noise factor 1 the test succeeds for every
    r and the term is always added. *)
Theorem metadata_term_at_extremes (r : Q) (file_size_kb : Z) (noise_factor : Q) :
  0 <= r -> r < 1 ->
  (noise_factor == 0 ->
     Qltb r noise_factor = false /\
     manipulation_score r file_size_kb noise_factor == 0 /\
     image_score_of_draw r file_size_kb noise_factor == 0) /\
  (noise_factor == 1 ->
     Qltb r noise_factor = true /\
     manipulation_score r file_size_kb noise_factor
       == (if (file_size_kb <? 100)%Z then 0.45 + 0.35 else 0.45) + 0.20 /\
     image_score_of_draw r file_size_kb noise_factor
       == (if (file_size_kb <? 100)%Z then 1 else 0.65)).
Proof.
  intros H0 H1. split; intro Hn.
  - destruct (manipulation_score_at_zero r file_size_kb noise_factor H0 Hn) as [E M].
    split; [exact E|]. split; [exact M|].
    unfold image_score_of_draw. rewrite py_min_below; lra.
  - destruct (manipulation_score_at_one r file_size_kb noise_factor H1 Hn) as [E M].
    split; [exact E|]. split; [exact M|].
    unfold image_score_of_draw.
    rewrite py_min_below; rewrite M; destruct (file_size_kb <? 100)%Z; lra.
Qed.

Lemma metadata_term_at_extremes_witness :
  Qltb 0.999 0.0 = false /\ Qltb 0.999 1.0 = true /\
  manipulation_score 0.999 500 0.0 == 0 /\
  manipulation_score 0.999 500 1.0 == 0.45 + 0.20.
Proof.
  assert (H0 : 0 <= 0.999) by (vm_compute; discriminate).
  assert (H1 : 0.999 < 1) by (vm_compute; reflexivity).
  assert (E0 : 0.0 == 0) by reflexivity.
  assert (E1 : 1.0 == 1) by reflexivity.
  destruct (metadata_term_at_extremes 0.999 500 0.0 H0 H1) as [Z0 _].
  destruct (metadata_term_at_extremes 0.999 500 1.0 H0 H1) as [_ Z1].
  destruct (Z0 E0) as (A & B & _).
  destruct (Z1 E1) as (C & D & _).
  exact (conj A (conj C (conj B D))).
Defined.

(** The same on the generator: whatever a uniform generator holds, the call
    at noise factor 0 scores 0 and the call at noise factor 1 scores as if
    the 0.20 term were unconditional. *)
Lemma image_score_on_uniform_generator (file_size_kb : Z) (g : Generator) :
  uniform g ->
  fst (_analyze_image_for_manipulation file_size_kb 0.0 g) == 0 /\
  fst (_analyze_image_for_manipulation file_size_kb 1.0 g)
  == (if (file_size_kb <? 100)%Z then 1 else 0.65).
Proof.
  intro U. destruct (U (position g)) as [H0 H1].
  unfold _analyze_image_for_manipulation, image_score_of_draw. cbn [random fst].
  destruct (manipulation_score_at_zero (draws g (position g)) file_size_kb 0.0 H0)
    as [_ M0]; [reflexivity|].
  destruct (manipulation_score_at_one (draws g (position g)) file_size_kb 1.0 H1)
    as [_ M1]; [reflexivity|].
  split.
  - rewrite py_min_below; lra.
  - rewrite py_min_below; rewrite M1; destruct (file_size_kb <? 100)%Z; lra.
Qed.

(** ** The blend *)

Lemma app_blend_with_image (t i : Q) (features : Z * Q) :
  App.final_misinfo_score t i (Some features) == t * 0.6 + i * 0.4.
Proof. unfold App.final_misinfo_score. simpl. lra. Qed.

Lemma app_blend_without_image (t i : Q) :
  App.final_misinfo_score t i None == t.
Proof. unfold App.final_misinfo_score. simpl. lra. Qed.

Lemma cli_blend_with_image (t i : Q) (features : Z * Q) :
  Cli.final_misinfo_score t i (Some features) == t * 0.6 + i * 0.4.
Proof. unfold Cli.final_misinfo_score. simpl. lra. Qed.

Lemma cli_blend_without_image (t i : Q) :
  Cli.final_misinfo_score t i None == t * 0.6 + t.
Proof. unfold Cli.final_misinfo_score. simpl. lra. Qed.

(** C1. In src/falseNewsChecker.py the blend without image features is
    text_score*0.6 + text_score, not text_score: on the url "scamscamscam"
    the text score is 0.36, the final score 0.576 and the verdict "caution",
    where src/app.py returns 0.36 and "verified". *)
Theorem cli_blend_without_image_is_not_text_score :
  let g := constant_generator 0.5 in
  let cli := fst (Cli.scores "scamscamscam" None "" g) in
  let app := fst (App.scores "scamscamscam" None "" g) in
  text_of cli == 0.36 /\
  final_of cli == 0.576 /\
  ~ final_of cli == text_of cli /\
  final_of app == text_of app /\
  Cli.returned (fst (Cli.check "scamscamscam" None "" g))
    = "Final Misinformation Score: 0.58 | VERDICT: " ++ verdict_label Caution /\
  App.verdict (fst (App.check "scamscamscam" None "" g)) = verdict_label Verified /\
  App.score (fst (App.check "scamscamscam" None "" g)) = "0.36".
Proof.
  cbv zeta.
  split; [vm_compute; reflexivity|].
  split; [vm_compute; reflexivity|].
  split; [vm_compute; discriminate|].
  split; [vm_compute; reflexivity|].
  split; [vm_compute; reflexivity|].
  split; vm_compute; reflexivity.
Qed.

(** ** The verdict *)

Lemma select_verdict_high (final : Q) :
  MANIPULATION_THRESHOLD < final -> select_verdict final = HighRisk.
Proof.
  intro H. unfold select_verdict, Qgtb.
  apply Qltb_true in H. rewrite H. reflexivity.
Qed.

Lemma select_verdict_caution (final : Q) :
  MISINFO_THRESHOLD < final -> final <= MANIPULATION_THRESHOLD ->
  select_verdict final = Caution.
Proof.
  intros H1 H2. unfold select_verdict, Qgtb.
  apply Qltb_true in H1. apply Qltb_false in H2. rewrite H2, H1. reflexivity.
Qed.

Lemma select_verdict_verified (final : Q) :
  final <= MISINFO_THRESHOLD -> select_verdict final = Verified.
Proof.
  intro H. unfold select_verdict, Qgtb.
  assert (H2 : final <= MANIPULATION_THRESHOLD)
    by (unfold MANIPULATION_THRESHOLD, MISINFO_THRESHOLD in *; lra).
  apply Qltb_false in H. apply Qltb_false in H2. rewrite H2, H. reflexivity.
Qed.

(** C3. Both files pick the label of [check] from the final score by the
    same two strict comparisons: above 0.70 high risk, else above 0.55
    caution, else verified; so a final score of exactly 0.55 is verified and
    one of exactly 0.70 is caution. *)
Theorem verdict_thresholds
    (url : string) (image_features : option (Z * Q)) (content : string)
    (g : Generator) :
  App.verdict (fst (App.check url image_features content g))
    = verdict_label
        (select_verdict (final_of (fst (App.scores url image_features content g)))) /\
  Cli.returned (fst (Cli.check url image_features content g))
    = "Final Misinformation Score: "
      ++ format_2f (final_of (fst (Cli.scores url image_features content g)))
      ++ " | VERDICT: "
      ++ verdict_label
           (select_verdict (final_of (fst (Cli.scores url image_features content g)))) /\
  forall final : Q,
    (0.70 < final -> select_verdict final = HighRisk) /\
    (0.55 < final -> final <= 0.70 -> select_verdict final = Caution) /\
    (final <= 0.55 -> select_verdict final = Verified) /\
    (final == 0.55 -> select_verdict final = Verified) /\
    (final == 0.70 -> select_verdict final = Caution).
Proof.
  split; [|split].
  - unfold App.check. destruct (App.scores url image_features content g).
    reflexivity.
  - unfold Cli.check. destruct (Cli.scores url image_features content g).
    reflexivity.
  - intro final. repeat split.
    + apply select_verdict_high.
    + apply select_verdict_caution.
    + apply select_verdict_verified.
    + intro E. apply select_verdict_verified. unfold MISINFO_THRESHOLD. lra.
    + intro E. apply select_verdict_caution;
        unfold MISINFO_THRESHOLD, MANIPULATION_THRESHOLD; lra.
Qed.

Lemma verdict_thresholds_witness :
  final_of (fst (App.scores "scamscamscam" (Some (50%Z, 19 # 30)) ""
                   (constant_generator 0))) == 0.55 /\
  App.verdict (fst (App.check "scamscamscam" (Some (50%Z, 19 # 30)) ""
                      (constant_generator 0))) = verdict_label Verified /\
  select_verdict 0.71 = HighRisk /\
  select_verdict 0.56 = Caution /\
  select_verdict 0.70 = Caution.
Proof.
  destruct (verdict_thresholds "scamscamscam" (Some (50%Z, 19 # 30)) ""
              (constant_generator 0)) as (HA & _ & HT).
  assert (E : final_of (fst (App.scores "scamscamscam" (Some (50%Z, 19 # 30)) ""
                               (constant_generator 0))) == 0.55)
    by (vm_compute; reflexivity).
  split; [exact E|].
  split.
  - rewrite HA.
    destruct (HT (final_of (fst (App.scores "scamscamscam" (Some (50%Z, 19 # 30)) ""
                                  (constant_generator 0))))) as (_ & _ & _ & HV & _).
    rewrite (HV E). reflexivity.
  - destruct (HT 0.71) as (H1 & _).
    destruct (HT 0.56) as (_ & H2 & _).
    destruct (HT 0.70) as (_ & _ & _ & _ & H3).
    split; [apply H1; vm_compute; reflexivity|].
    split; [apply H2; vm_compute; [reflexivity | discriminate]|].
    apply H3. reflexivity.
Defined.

(** ** Rendering *)

Lemma is_digit_digit_char (n : Z) :
  (0 <= n < 10)%Z -> is_digit (digit_char n) = true.
Proof.
  intro H.
  assert (T : forallb (fun k => is_digit (digit_char (Z.of_nat k))) (seq 0 10) = true)
    by reflexivity.
  rewrite forallb_forall in T.
  rewrite <- (Z2Nat.id n) by lia.
  apply T. apply in_seq. lia.
Qed.

Lemma string_of_uint_all_digits (d : Decimal.uint) :
  all_digits (NilEmpty.string_of_uint d) = true.
Proof. induction d; simpl; auto. Qed.

Lemma str_of_nonneg_shape (z : Z) :
  exists c rest, str_of_nonneg z = String c rest /\
                 is_digit c = true /\ all_digits rest = true.
Proof.
  unfold str_of_nonneg, NilZero.string_of_uint.
  destruct (N.to_uint (Z.to_N z)) as [|d|d|d|d|d|d|d|d|d|d];
    simpl; eexists; eexists;
    (split; [reflexivity | split; [reflexivity | try reflexivity;
                                                  apply string_of_uint_all_digits]]).
Qed.

Lemma digits_then_fraction_app (ds f : string) (c : ascii) :
  is_digit c = true -> all_digits ds = true -> is_fraction f = true ->
  digits_then_fraction (String c ds ++ f) = true.
Proof.
  revert c. induction ds as [|d ds IH]; intros c Hc Hds Hf.
  - simpl. rewrite Hc, Hf. reflexivity.
  - simpl in Hds. apply andb_true_iff in Hds. destruct Hds as [Hd Hds].
    change (String c (String d ds) ++ f) with (String c (String d ds ++ f)).
    cbn [digits_then_fraction]. rewrite Hc, (IH d Hd Hds Hf).
    apply orb_true_r.
Qed.

Lemma is_digit_not_minus (c : ascii) : is_digit c = true -> Ascii.eqb c "-" = false.
Proof.
  intro H. destruct (Ascii.eqb c "-") eqn:E; [|reflexivity].
  apply Ascii.eqb_eq in E. subst c. discriminate H.
Qed.

Lemma is_fraction_intro (d1 d2 : ascii) :
  is_digit d1 = true -> is_digit d2 = true ->
  is_fraction (String "." (String d1 (String d2 ""))) = true.
Proof.
  intros H1 H2. unfold is_fraction.
  rewrite Ascii.eqb_refl, H1, H2. reflexivity.
Qed.

(** [:.2f] always yields a sign-prefixed integer part, a point and exactly
    two digits. *)
Lemma format_2f_two_decimals (x : Q) : two_decimals (format_2f x) = true.
Proof.
  unfold format_2f.
  set (c := Z.abs (round_half_even (x * 100))).
  destruct (str_of_nonneg_shape (c / 100)) as (d & rest & E & Hd & Hrest).
  rewrite E.
  assert (Hc : (0 <= c)%Z) by (unfold c; lia).
  assert (F : is_fraction
                ("." ++ String (digit_char (c mod 100 / 10))
                          (String (digit_char (c mod 10)) "")) = true).
  { apply is_fraction_intro; apply is_digit_digit_char.
    - split; [apply Z.div_pos; [apply Z.mod_pos_bound|]; lia|].
      apply Z.div_lt_upper_bound; [lia|]. apply Z.mod_pos_bound. lia.
    - apply Z.mod_pos_bound. lia. }
  pose proof (digits_then_fraction_app rest _ d Hd Hrest F) as G.
  destruct (Qltb x 0).
  - change ("-" ++ ?s) with (String "-" s). exact G.
  - change ("" ++ ?s) with s.
    change (String d rest ++ ?s) with (String d (rest ++ s)) in *.
    unfold two_decimals. rewrite (is_digit_not_minus d Hd). exact G.
Qed.

Lemma verdict_label_injective (v w : Verdict) :
  verdict_label v = verdict_label w -> v = w.
Proof. destruct v, w; intro H; try reflexivity; discriminate H. Qed.

(** C5, as amended. For every input, [check] of src/app.py returns a record
    of a verdict label, one of three distinct strings, and the final, text
    and image scores, each rendered with exactly two decimal digits; [check]
    of src/falseNewsChecker.py returns one string, made of the final score
    rendered with exactly two decimal digits and one of the same three
    labels, and prints the text score instead of returning it. *)
Theorem check_result_shape
    (url : string) (image_features : option (Z * Q)) (content : string)
    (g : Generator) :
  let r := fst (App.check url image_features content g) in
  let s := fst (App.scores url image_features content g) in
  let o := fst (Cli.check url image_features content g) in
  let t := fst (Cli.scores url image_features content g) in
  (forall v w : Verdict, verdict_label v = verdict_label w -> v = w) /\
  (exists v : Verdict, App.verdict r = verdict_label v) /\
  App.score r = format_2f (final_of s) /\
  App.text_score r = format_2f (text_of s) /\
  App.image_score r = format_2f (image_of s) /\
  two_decimals (App.score r) = true /\
  two_decimals (App.text_score r) = true /\
  two_decimals (App.image_score r) = true /\
  (exists v : Verdict,
     Cli.returned o = "Final Misinformation Score: " ++ format_2f (final_of t)
                      ++ " | VERDICT: " ++ verdict_label v) /\
  two_decimals (format_2f (final_of t)) = true /\
  In ("Text Bias Score: " ++ format_2f (text_of t)) (Cli.printed o).
Proof.
  cbv zeta. unfold App.check, Cli.check.
  destruct (App.scores url image_features content g) as [s g1].
  destruct (Cli.scores url image_features content g) as [t g2].
  cbn [fst App.verdict App.score App.text_score App.image_score
       Cli.returned Cli.printed].
  split; [exact verdict_label_injective|].
  split; [eexists; reflexivity|].
  do 3 (split; [reflexivity|]).
  do 3 (split; [apply format_2f_two_decimals|]).
  split; [eexists; reflexivity|].
  split; [apply format_2f_two_decimals|].
  right. apply in_or_app. right. left. reflexivity.
Qed.

(** C5, as stated, fails for src/falseNewsChecker.py: two inputs whose text
    and image scores differ get the same returned string, so the returned
    value does not hold the two subscores. *)
Lemma cli_check_returns_no_subscores :
  let g := constant_generator 0.5 in
  Cli.returned (fst (Cli.check ".co" None "" g))
    = Cli.returned (fst (Cli.check "" (Some (200%Z, 0.6)) "" g)) /\
  format_2f (text_of (fst (Cli.scores ".co" None "" g))) = "0.12" /\
  format_2f (text_of (fst (Cli.scores "" (Some (200%Z, 0.6)) "" g))) = "0.00" /\
  format_2f (image_of (fst (Cli.scores ".co" None "" g))) = "0.00" /\
  format_2f (image_of (fst (Cli.scores "" (Some (200%Z, 0.6)) "" g))) = "0.47" /\
  ~ (exists text_part : string -> string,
       forall url image_features content g,
         text_part (Cli.returned (fst (Cli.check url image_features content g)))
         = format_2f (text_of (fst (Cli.scores url image_features content g)))).
Proof.
  cbv zeta.
  assert (E : Cli.returned (fst (Cli.check ".co" None "" (constant_generator 0.5)))
              = Cli.returned (fst (Cli.check "" (Some (200%Z, 0.6)) ""
                                     (constant_generator 0.5))))
    by (vm_compute; reflexivity).
  assert (T1 : format_2f (text_of (fst (Cli.scores ".co" None ""
                                          (constant_generator 0.5)))) = "0.12")
    by (vm_compute; reflexivity).
  assert (T2 : format_2f (text_of (fst (Cli.scores "" (Some (200%Z, 0.6)) ""
                                          (constant_generator 0.5)))) = "0.00")
    by (vm_compute; reflexivity).
  split; [exact E|].
  split; [exact T1|].
  split; [exact T2|].
  split; [vm_compute; reflexivity|].
  split; [vm_compute; reflexivity|].
  intros [text_part H].
  pose proof (H ".co" None "" (constant_generator 0.5)) as H1.
  pose proof (H "" (Some (200%Z, 0.6)) "" (constant_generator 0.5)) as H2.
  rewrite E, H2, T2 in H1. rewrite T1 in H1. discriminate H1.
Qed.

(** ** Determinism *)

(** C9. [check] depends on the generator only through the one value it
    draws: two calls with the same url, content and image features whose
    draws agree return the same result, in both files; without image
    features no value is drawn, the generator is left as it was, and the
    result is the same whatever the generator holds. *)
Theorem check_deterministic
    (url : string) (image_features : option (Z * Q)) (content : string)
    (g1 g2 : Generator) :
  (fst (random g1) = fst (random g2) ->
   fst (App.check url image_features content g1)
     = fst (App.check url image_features content g2) /\
   fst (Cli.check url image_features content g1)
     = fst (Cli.check url image_features content g2)) /\
  fst (App.check url None content g1) = fst (App.check url None content g2) /\
  fst (Cli.check url None content g1) = fst (Cli.check url None content g2) /\
  snd (App.check url None content g1) = g1 /\
  snd (Cli.check url None content g1) = g1.
Proof.
  split; [|repeat split].
  intro H.
  unfold App.check, Cli.check, App.scores, Cli.scores, image_score_of,
    _analyze_image_for_manipulation.
  destruct image_features as [[file_size_kb noise_factor]|].
  - unfold random in *. cbn [fst] in H. rewrite H. split; reflexivity.
  - split; reflexivity.
Qed.

Lemma check_deterministic_witness :
  fst (App.check "viral.news" (Some (80%Z, 0.7)) "exposed"
         (mkGenerator (fun n => if Nat.even n then 0.25 else 0.75) 0))
  = fst (App.check "viral.news" (Some (80%Z, 0.7)) "exposed"
           (mkGenerator (fun _ => 0.25) 5)).
Proof.
  destruct (check_deterministic "viral.news" (Some (80%Z, 0.7)) "exposed"
              (mkGenerator (fun n => if Nat.even n then 0.25 else 0.75) 0)
              (mkGenerator (fun _ => 0.25) 5)) as [H _].
  apply H. reflexivity.
Defined.

(** ** The endpoint /check *)

Section EndpointProperties.

Variable int_of_str : string -> option Z.
Variable float_of_str : string -> option Q.

Lemma check_without_image_keeps_generator
    (url content : string) (g : Generator) :
  App.check url None content g = (fst (App.check url None content g), g).
Proof. reflexivity. Qed.

(** A missing field, a JSON null, and a coercion that raises [ValueError]
    or [TypeError] all leave [image_features] at [None]. *)
Lemma coerce_image_features_degrades (file_size_kb noise_factor : PyValue) :
  file_size_kb = PyNone \/ noise_factor = PyNone \/
  py_int int_of_str file_size_kb = Raises ValueError \/
  py_int int_of_str file_size_kb = Raises TypeError \/
  ((exists size, py_int int_of_str file_size_kb = Returns size) /\
   (py_float float_of_str noise_factor = Raises ValueError \/
    py_float float_of_str noise_factor = Raises TypeError)) ->
  coerce_image_features int_of_str float_of_str file_size_kb noise_factor
  = Returns None.
Proof.
  unfold coerce_image_features.
  intros [H | [H | [H | [H | [[size H] [H' | H']]]]]].
  - subst. reflexivity.
  - subst. simpl. rewrite andb_false_r. reflexivity.
  - rewrite H. destruct (negb _ && negb _); reflexivity.
  - rewrite H. destruct (negb _ && negb _); reflexivity.
  - rewrite H, H'. destruct (negb _ && negb _); reflexivity.
  - rewrite H, H'. destruct (negb _ && negb _); reflexivity.
Qed.

(** With [url] and [content] strings, such a request is answered by the
    text-only analysis. *)
Lemma run_false_news_check_degrades
    (data : list (string * PyValue)) (g : Generator) (url content : string) :
  dict_get data "url" (PyStr "URL Not Provided") = PyStr url ->
  dict_get data "content" (PyStr "") = PyStr content ->
  coerce_image_features int_of_str float_of_str
    (dict_get data "file_size_kb" PyNone) (dict_get data "noise_factor" PyNone)
  = Returns None ->
  run_false_news_check int_of_str float_of_str data g
  = (Returns (fst (App.check url None content g)), g).
Proof.
  intros Hu Hc Hf. unfold run_false_news_check.
  rewrite Hf, Hu, Hc. reflexivity.
Qed.

(** C7. A coercion can also fail with [OverflowError], which the handler
    does not catch: for a [noise_factor] that is an integer beyond the
    range of a float, [float] raises it and the request ends with that
    exception, not with a text-only result. *)
Theorem run_false_news_check_overflow_escapes (g : Generator) :
  let data := [ ("url", PyStr "http://example.com/story");
                ("file_size_kb", PyInt 10);
                ("noise_factor", PyInt (10 ^ 400)) ] in
  py_int int_of_str (dict_get data "file_size_kb" PyNone) = Returns 10%Z /\
  py_float float_of_str (dict_get data "noise_factor" PyNone)
    = Raises OverflowError /\
  run_false_news_check int_of_str float_of_str data g
    = (Raises OverflowError, g).
Proof.
  cbv zeta. repeat split.
Qed.

End EndpointProperties.

(** ** Letter case *)

Lemma lower_char_idempotent (c : ascii) : lower_char (lower_char c) = lower_char c.
Proof. destruct c as [[] [] [] [] [] [] [] []]; reflexivity. Qed.

Lemma lower_idempotent (s : string) : lower (lower s) = lower s.
Proof.
  induction s as [|c s IH]; [reflexivity|].
  simpl. rewrite lower_char_idempotent, IH. reflexivity.
Qed.

Lemma lower_app (s t : string) : lower (s ++ t) = lower s ++ lower t.
Proof.
  induction s as [|c s IH]; [reflexivity|].
  simpl. rewrite IH. reflexivity.
Qed.

(** The text that is searched for keywords depends on [url] and [content]
    through their lowercase forms only. *)
Lemma lowered_text_case_insensitive (url url' content content' : string) :
  lower url' = lower url -> lower content' = lower content ->
  lower (url' ++ " " ++ content') = lower (url ++ " " ++ content).
Proof.
  intros Hu Hc. rewrite !lower_app, Hu, Hc. reflexivity.
Qed.

Lemma startswith_lower (s p : string) :
  startswith s p = true -> startswith (lower s) (lower p) = true.
Proof.
  revert s. induction p as [|c p IH]; intros s H; [reflexivity|].
  destruct s as [|d s]; [discriminate H|].
  simpl in H. apply andb_true_iff in H. destruct H as [E H].
  apply Ascii.eqb_eq in E. subst d.
  simpl. rewrite Ascii.eqb_refl. apply IH. exact H.
Qed.

Lemma contains_lower (s p : string) :
  contains s p = true -> contains (lower s) (lower p) = true.
Proof.
  induction s as [|d s IH]; intro H.
  - simpl in H. rewrite orb_false_r in H.
    apply startswith_lower in H. simpl in *. rewrite H. reflexivity.
  - cbn [contains] in H. apply orb_true_iff in H.
    cbn [lower contains]. apply orb_true_iff.
    destruct H as [H | H].
    + left. apply (startswith_lower (String d s) p H).
    + right. apply IH. exact H.
Qed.

Lemma startswith_app (s t p : string) :
  startswith s p = true -> startswith (s ++ t) p = true.
Proof.
  revert s. induction p as [|c p IH]; intros s H; [reflexivity|].
  destruct s as [|d s]; [discriminate H|].
  simpl in H. apply andb_true_iff in H. destruct H as [E H].
  simpl. rewrite E. apply IH. exact H.
Qed.

Lemma contains_app (s t p : string) :
  p <> "" -> contains s p = true -> contains (s ++ t) p = true.
Proof.
  intro Hp. induction s as [|d s IH]; intro H.
  - simpl in H. rewrite orb_false_r in H.
    destruct p; [contradiction Hp; reflexivity | discriminate H].
  - cbn [contains] in H. apply orb_true_iff in H.
    change (String d s ++ t) with (String d (s ++ t)).
    cbn [contains]. apply orb_true_iff.
    destruct H as [H | H].
    + left. apply (startswith_app (String d s) t p H).
    + right. apply IH. exact H.
Qed.

(** A pattern that occurs is counted at least once. *)
Lemma contains_count_from (s p : string) :
  p <> "" -> contains s p = true -> (1 <= count_from 0 s p)%nat.
Proof.
  intro Hp. induction s as [|d s IH]; intro H.
  - simpl in H. rewrite orb_false_r in H.
    destruct p; [contradiction Hp; reflexivity | discriminate H].
  - cbn [contains] in H. cbn [count_from].
    destruct (startswith (String d s) p) eqn:E.
    + lia.
    + apply IH. exact H.
Qed.

Lemma contains_count (s p : string) :
  p <> "" -> contains s p = true -> (1 <= count s p)%Z.
Proof.
  intros Hp H. pose proof (contains_count_from s p Hp H) as C.
  unfold count. destruct p; [contradiction Hp; reflexivity | lia].
Qed.

Lemma lower_nonempty (p : string) : p <> "" -> lower p <> "".
Proof. destruct p; [intro H; contradiction H; reflexivity | discriminate]. Qed.

Lemma startswith_no_lowercase (s p : string) :
  startswith s p = true -> no_lowercase s = true -> no_lowercase p = true.
Proof.
  revert s. induction p as [|c p IH]; intros s H N; [reflexivity|].
  destruct s as [|d s]; [discriminate H|].
  simpl in H. apply andb_true_iff in H. destruct H as [E H].
  apply Ascii.eqb_eq in E. subst d.
  cbn [no_lowercase] in *. apply andb_true_iff in N. destruct N as [N1 N2].
  rewrite N1. apply (IH s H N2).
Qed.

Lemma contains_no_lowercase (s p : string) :
  contains s p = true -> no_lowercase s = true -> no_lowercase p = true.
Proof.
  induction s as [|d s IH]; intros H N.
  - simpl in H. rewrite orb_false_r in H.
    apply (startswith_no_lowercase "" p H N).
  - cbn [contains] in H. apply orb_true_iff in H. destruct H as [H | H].
    + apply (startswith_no_lowercase (String d s) p H N).
    + cbn [no_lowercase] in N. apply andb_true_iff in N. apply IH; tauto.
Qed.

Lemma endswith_no_lowercase (s p : string) :
  endswith s p = true -> no_lowercase s = true -> no_lowercase p = true.
Proof.
  induction s as [|d s IH]; intros H N.
  - destruct p; [reflexivity | discriminate H].
  - cbn [endswith] in H. apply orb_true_iff in H. destruct H as [H | H].
    + apply String.eqb_eq in H. subst p. exact N.
    + cbn [no_lowercase] in N. apply andb_true_iff in N. apply IH; tauto.
Qed.

(** A url without lowercase letters triggers neither domain heuristic. *)
Lemma no_lowercase_no_penalty (url : string) :
  no_lowercase url = true ->
  low_authority_domain url = false /\ misinformation_pattern url = false.
Proof.
  intro N.
  assert (C : forall p, no_lowercase p = false -> contains url p = false).
  { intros p Hp. destruct (contains url p) eqn:E; [|reflexivity].
    rewrite (contains_no_lowercase url p E N) in Hp. discriminate Hp. }
  assert (D : endswith url ".co" = false).
  { destruct (endswith url ".co") eqn:E; [|reflexivity].
    pose proof (endswith_no_lowercase url ".co" E N) as F. discriminate F. }
  unfold low_authority_domain, misinformation_pattern. cbn [existsb].
  rewrite D, !C by reflexivity. split; reflexivity.
Qed.

(** C10, as amended. Keywords are counted in the lowercased text, so the
    keyword score depends on url and content through their lowercase forms
    only and a keyword spelled in capitals in the url is still counted; the
    domain heuristics search the url as given, so a url without lowercase
    letters, whatever markers it spells in capitals, gets no penalty and its
    score is the keyword score alone. *)
Theorem text_score_case_handling (url content : string) :
  (forall url' content' : string,
     lower url' = lower url -> lower content' = lower content ->
     keyword_frequency (lower (url' ++ " " ++ content'))
     = keyword_frequency (lower (url ++ " " ++ content))) /\
  (forall K : string,
     K <> "" -> contains url K = true ->
     (1 <= count (lower (url ++ " " ++ content)) (lower K))%Z) /\
  (no_lowercase url = true ->
     low_authority_domain url = false /\
     misinformation_pattern url = false /\
     bias_score url content = keyword_frequency (lower (url ++ " " ++ content)) /\
     _analyze_text_for_bias url content
     = py_min (keyword_frequency (lower (url ++ " " ++ content)) / 2.5) 1.0).
Proof.
  split; [|split].
  - intros url' content' Hu Hc.
    rewrite (lowered_text_case_insensitive url url' content content' Hu Hc).
    reflexivity.
  - intros K HK H.
    apply contains_count; [apply lower_nonempty; exact HK|].
    apply contains_lower. apply contains_app; assumption.
  - intro N. destruct (no_lowercase_no_penalty url N) as [L M].
    assert (B : bias_score url content
                = keyword_frequency (lower (url ++ " " ++ content)))
      by (unfold bias_score; rewrite L, M; reflexivity).
    repeat split; try assumption.
    unfold _analyze_text_for_bias. rewrite B. reflexivity.
Qed.

Lemma text_score_case_handling_witness :
  no_lowercase "SCAM.BLOGSPOT.CO" = true /\
  low_authority_domain "SCAM.BLOGSPOT.CO" = false /\
  misinformation_pattern "SCAM.BLOGSPOT.CO" = false /\
  (1 <= count (lower ("SCAM.BLOGSPOT.CO" ++ " " ++ "")) "scam")%Z /\
  keyword_frequency (lower ("SCAM.BLOGSPOT.CO" ++ " " ++ ""))
  = keyword_frequency (lower ("scam.blogspot.co" ++ " " ++ "")) /\
  _analyze_text_for_bias "SCAM.BLOGSPOT.CO" "" == 0.30 / 2.5.
Proof.
  assert (N : no_lowercase "SCAM.BLOGSPOT.CO" = true) by reflexivity.
  destruct (text_score_case_handling "SCAM.BLOGSPOT.CO" "") as (A & B & C).
  destruct (C N) as (L & M & _ & S).
  split; [exact N|].
  split; [exact L|].
  split; [exact M|].
  split; [apply (B "SCAM"); [discriminate | reflexivity]|].
  split.
  - symmetry. apply A; reflexivity.
  - rewrite S. vm_compute. reflexivity.
Defined.

(** C10, as stated, fails: a url can spell a marker in capitals and hold
    another one in lowercase, and then the penalty is added. *)
Lemma uppercase_marker_beside_lowercase_marker :
  contains "BLOGSPOT.wordpress.com" "BLOGSPOT" = true /\
  low_authority_domain "BLOGSPOT.wordpress.com" = true /\
  bias_score "BLOGSPOT.wordpress.com" "" == 0.3 /\
  endswith "hoax.CO" ".CO" = true /\
  misinformation_pattern "hoax.CO" = true /\
  bias_score "hoax.CO" "" == 0.4 /\
  ~ (forall url : string,
       contains url "BLOGSPOT" = true \/ endswith url ".CO" = true ->
       low_authority_domain url = false /\ misinformation_pattern url = false).
Proof.
  do 6 (split; [vm_compute; reflexivity|]).
  intro H.
  destruct (H "BLOGSPOT.wordpress.com") as [L _]; [left; reflexivity|].
  discriminate L.
Qed.

(** * Further properties of the scorer *)

Lemma py_min_monotone (a b : Q) : a <= b -> py_min a 1.0 <= py_min b 1.0.
Proof.
  intro H. unfold py_min.
  destruct (Qltb 1.0 a) eqn:A; destruct (Qltb 1.0 b) eqn:B;
    try apply Qltb_true in A; try apply Qltb_false in A;
    try apply Qltb_true in B; try apply Qltb_false in B; lra.
Qed.

Ltac reflect_tests :=
  repeat match goal with
  | H : Qltb _ _ = true |- _ => apply Qltb_true in H
  | H : Qltb _ _ = false |- _ => apply Qltb_false in H
  | H : Qgtb _ _ = true |- _ => unfold Qgtb in H
  | H : Qgtb _ _ = false |- _ => unfold Qgtb in H
  | H : (_ <? _)%Z = true |- _ => apply Z.ltb_lt in H
  | H : (_ <? _)%Z = false |- _ => apply Z.ltb_ge in H
  | H : _ && _ = true |- _ => apply andb_true_iff in H; destruct H
  end.

Lemma manipulation_score_monotone
    (r : Q) (size1 size2 : Z) (noise1 noise2 : Q) :
  (size2 <= size1)%Z -> noise1 <= noise2 ->
  manipulation_score r size1 noise1 <= manipulation_score r size2 noise2.
Proof.
  intros Hs Hn. unfold manipulation_score.
  destruct ((size1 <? 100)%Z && Qgtb noise1 0.5) eqn:A1;
    destruct ((size2 <? 100)%Z && Qgtb noise2 0.5) eqn:A2;
    destruct (Qltb r noise1) eqn:B1; destruct (Qltb r noise2) eqn:B2;
    reflect_tests; try lra;
    try (apply andb_false_iff in A2; destruct A2 as [A2 | A2];
         reflect_tests; try lia; lra).
Qed.

(** X1. With the same draw and the same file size, a larger noise factor
    never gives a smaller image score. *)
Theorem image_score_monotone_in_noise
    (file_size_kb : Z) (noise1 noise2 : Q) (g : Generator) :
  noise1 <= noise2 ->
  fst (_analyze_image_for_manipulation file_size_kb noise1 g)
  <= fst (_analyze_image_for_manipulation file_size_kb noise2 g).
Proof.
  intro H. unfold _analyze_image_for_manipulation, image_score_of_draw.
  cbn [random fst]. apply py_min_monotone.
  apply manipulation_score_monotone; [lia | exact H].
Qed.

Lemma image_score_monotone_in_noise_witness :
  0.2 <= 0.8 /\
  fst (_analyze_image_for_manipulation 50 0.2 (constant_generator 0.5))
  <= fst (_analyze_image_for_manipulation 50 0.8 (constant_generator 0.5)).
Proof.
  assert (H : 0.2 <= 0.8) by (vm_compute; discriminate).
  split; [exact H|].
  apply (image_score_monotone_in_noise 50 0.2 0.8 (constant_generator 0.5) H).
Defined.

(** X2. With the same draw and the same noise factor, a smaller file never
    gets a smaller image score. *)
Theorem image_score_antitone_in_size
    (size1 size2 : Z) (noise_factor : Q) (g : Generator) :
  (size2 <= size1)%Z ->
  fst (_analyze_image_for_manipulation size1 noise_factor g)
  <= fst (_analyze_image_for_manipulation size2 noise_factor g).
Proof.
  intro H. unfold _analyze_image_for_manipulation, image_score_of_draw.
  cbn [random fst]. apply py_min_monotone.
  apply manipulation_score_monotone; [exact H | lra].
Qed.

Lemma image_score_antitone_in_size_witness :
  (40 <= 400)%Z /\
  fst (_analyze_image_for_manipulation 400 0.9 (constant_generator 0.95))
  <= fst (_analyze_image_for_manipulation 40 0.9 (constant_generator 0.95)).
Proof.
  assert (H : (40 <= 400)%Z) by lia.
  split; [exact H|].
  apply (image_score_antitone_in_size 400 40 0.9 (constant_generator 0.95) H).
Defined.

(** X3. The verdict never goes down when the final score goes up. *)
Theorem verdict_monotone (final1 final2 : Q) :
  final1 <= final2 ->
  (verdict_rank (select_verdict final1) <= verdict_rank (select_verdict final2))%nat.
Proof.
  intro H. unfold select_verdict, Qgtb, MANIPULATION_THRESHOLD, MISINFO_THRESHOLD.
  destruct (Qltb 0.70 final1) eqn:A1; destruct (Qltb 0.70 final2) eqn:A2;
    destruct (Qltb 0.55 final1) eqn:B1; destruct (Qltb 0.55 final2) eqn:B2;
    reflect_tests; cbn [verdict_rank]; try lia; exfalso; lra.
Qed.

Lemma verdict_monotone_witness :
  0.6 <= 0.9 /\
  (verdict_rank (select_verdict 0.6) <= verdict_rank (select_verdict 0.9))%nat.
Proof.
  assert (H : 0.6 <= 0.9) by (vm_compute; discriminate).
  split; [exact H|].
  apply (verdict_monotone 0.6 0.9 H).
Defined.

Lemma text_score_at_most_one (url content : string) :
  _analyze_text_for_bias url content <= 1.
Proof. unfold _analyze_text_for_bias. apply py_min_upper. Qed.

Lemma image_score_of_at_most_one (image_features : option (Z * Q)) (g : Generator) :
  fst (image_score_of image_features g) <= 1.
Proof.
  destruct image_features as [[file_size_kb noise_factor]|]; cbn [image_score_of].
  - unfold _analyze_image_for_manipulation, image_score_of_draw. cbn [random fst].
    apply py_min_upper.
  - cbn [fst]. lra.
Qed.

Lemma app_scores_unfold (url : string) (image_features : option (Z * Q))
    (content : string) (g : Generator) :
  fst (App.scores url image_features content g)
  = mkScores (_analyze_text_for_bias url content)
      (fst (image_score_of image_features g))
      (App.final_misinfo_score (_analyze_text_for_bias url content)
         (fst (image_score_of image_features g)) image_features).
Proof.
  unfold App.scores. destruct (image_score_of image_features g). reflexivity.
Qed.

Lemma cli_scores_unfold (url : string) (image_features : option (Z * Q))
    (content : string) (g : Generator) :
  fst (Cli.scores url image_features content g)
  = mkScores (_analyze_text_for_bias url content)
      (fst (image_score_of image_features g))
      (Cli.final_misinfo_score (_analyze_text_for_bias url content)
         (fst (image_score_of image_features g)) image_features).
Proof.
  unfold Cli.scores. destruct (image_score_of image_features g). reflexivity.
Qed.

(** X4. The final score of src/app.py never exceeds 1, whatever the input;
    that of src/falseNewsChecker.py never does when image features are
    given, and can without them. *)
Theorem final_score_at_most_one
    (url : string) (image_features : option (Z * Q)) (content : string)
    (g : Generator) :
  final_of (fst (App.scores url image_features content g)) <= 1 /\
  (forall features : Z * Q,
     final_of (fst (Cli.scores url (Some features) content g)) <= 1) /\
  (exists url' content' : string,
     1 < final_of (fst (Cli.scores url' None content' g))).
Proof.
  pose proof (text_score_at_most_one url content) as T.
  split; [|split].
  - rewrite app_scores_unfold. cbn [final_of].
    pose proof (image_score_of_at_most_one image_features g) as I.
    destruct image_features as [features|].
    + rewrite app_blend_with_image. lra.
    + rewrite app_blend_without_image. exact T.
  - intro features. rewrite cli_scores_unfold. cbn [final_of].
    pose proof (image_score_of_at_most_one (Some features) g) as I.
    rewrite cli_blend_with_image. lra.
  - exists "scam scam scam scam scam scam scam scam scam", "".
    rewrite cli_scores_unfold. cbn [final_of].
    rewrite cli_blend_without_image. vm_compute. reflexivity.
Qed.

Lemma app_check_verdict (url : string) (image_features : option (Z * Q))
    (content : string) (g : Generator) :
  App.verdict (fst (App.check url image_features content g))
  = verdict_label
      (select_verdict (final_of (fst (App.scores url image_features content g)))).
Proof.
  unfold App.check. destruct (App.scores url image_features content g).
  reflexivity.
Qed.

Lemma cli_check_returned (url : string) (image_features : option (Z * Q))
    (content : string) (g : Generator) :
  Cli.returned (fst (Cli.check url image_features content g))
  = "Final Misinformation Score: "
    ++ format_2f (final_of (fst (Cli.scores url image_features content g)))
    ++ " | VERDICT: "
    ++ verdict_label
         (select_verdict (final_of (fst (Cli.scores url image_features content g)))).
Proof.
  unfold Cli.check. destruct (Cli.scores url image_features content g).
  reflexivity.
Qed.

Lemma select_verdict_high_inv (final : Q) :
  select_verdict final = HighRisk -> 0.70 < final.
Proof.
  unfold select_verdict, Qgtb, MANIPULATION_THRESHOLD, MISINFO_THRESHOLD.
  destruct (Qltb 0.70 final) eqn:A.
  - intros _. apply Qltb_true in A. exact A.
  - destruct (Qltb 0.55 final); discriminate.
Qed.

(** X5. An image cannot raise the verdict on its own: when the text score
    is at most 0.25, [check] answers "verified" in both files, whatever the
    image features and the draw are. *)
Theorem low_text_score_is_verified
    (url : string) (image_features : option (Z * Q)) (content : string)
    (g : Generator) :
  _analyze_text_for_bias url content <= 0.25 ->
  App.verdict (fst (App.check url image_features content g))
    = verdict_label Verified /\
  Cli.returned (fst (Cli.check url image_features content g))
    = "Final Misinformation Score: "
      ++ format_2f (final_of (fst (Cli.scores url image_features content g)))
      ++ " | VERDICT: " ++ verdict_label Verified.
Proof.
  intro T.
  pose proof (image_score_of_at_most_one image_features g) as I.
  split.
  - rewrite app_check_verdict, app_scores_unfold. cbn [final_of].
    rewrite select_verdict_verified; [reflexivity|].
    unfold MISINFO_THRESHOLD.
    destruct image_features as [features|].
    + rewrite app_blend_with_image. lra.
    + rewrite app_blend_without_image. lra.
  - rewrite cli_check_returned, cli_scores_unfold. cbn [final_of].
    rewrite select_verdict_verified; [reflexivity|].
    unfold MISINFO_THRESHOLD.
    destruct image_features as [features|].
    + rewrite cli_blend_with_image. lra.
    + rewrite cli_blend_without_image. lra.
Qed.

Lemma low_text_score_is_verified_witness :
  _analyze_text_for_bias "http://example.com/viral" "" <= 0.25 /\
  App.verdict (fst (App.check "http://example.com/viral" (Some (10%Z, 1.0)) ""
                      (constant_generator 0)))
  = verdict_label Verified.
Proof.
  assert (T : _analyze_text_for_bias "http://example.com/viral" "" <= 0.25)
    by (vm_compute; discriminate).
  split; [exact T|].
  apply (low_text_score_is_verified "http://example.com/viral"
           (Some (10%Z, 1.0)) "" (constant_generator 0) T).
Defined.

(** X6. In src/app.py the verdict "high risk" needs a text score above 0.5,
    with or without image features; in src/falseNewsChecker.py it does
    whenever image features are given. *)
Theorem high_risk_needs_text_score
    (url : string) (image_features : option (Z * Q)) (content : string)
    (g : Generator) :
  (App.verdict (fst (App.check url image_features content g))
     = verdict_label HighRisk ->
   0.5 < _analyze_text_for_bias url content) /\
  (forall features : Z * Q,
     select_verdict (final_of (fst (Cli.scores url (Some features) content g)))
       = HighRisk ->
     0.5 < _analyze_text_for_bias url content).
Proof.
  pose proof (text_score_at_most_one url content) as T.
  split.
  - rewrite app_check_verdict. intro H.
    apply verdict_label_injective, select_verdict_high_inv in H.
    rewrite app_scores_unfold in H. cbn [final_of] in H.
    pose proof (image_score_of_at_most_one image_features g) as I.
    destruct image_features as [features|].
    + rewrite app_blend_with_image in H. lra.
    + rewrite app_blend_without_image in H. lra.
  - intros features H. apply select_verdict_high_inv in H.
    rewrite cli_scores_unfold in H. cbn [final_of] in H.
    pose proof (image_score_of_at_most_one (Some features) g) as I.
    rewrite cli_blend_with_image in H. lra.
Qed.

Lemma high_risk_needs_text_score_witness :
  App.verdict (fst (App.check "scam scam scam scam scam scam scam" None ""
                      (constant_generator 0)))
    = verdict_label HighRisk /\
  0.5 < _analyze_text_for_bias "scam scam scam scam scam scam scam" "".
Proof.
  assert (V : App.verdict (fst (App.check "scam scam scam scam scam scam scam"
                                  None "" (constant_generator 0)))
              = verdict_label HighRisk) by (vm_compute; reflexivity).
  split; [exact V|].
  destruct (high_risk_needs_text_score "scam scam scam scam scam scam scam"
              None "" (constant_generator 0)) as [H _].
  exact (H V).
Defined.

(** ** The sign of the text score *)

Lemma count_nonneg (s p : string) : (0 <= count s p)%Z.
Proof. unfold count. destruct p; lia. Qed.

Lemma float_of_int_nonneg (z : Z) : (0 <= z)%Z -> 0 <= float_of_int z.
Proof.
  intro H. unfold float_of_int, inject_Z, Qle. cbn [Qnum Qden]. lia.
Qed.

Lemma not_contains_count_from (s p : string) :
  contains s p = false -> count_from 0 s p = 0%nat.
Proof.
  induction s as [|d s IH]; intro H; [reflexivity|].
  cbn [contains] in H. apply orb_false_iff in H. destruct H as [H1 H2].
  cbn [count_from]. rewrite H1. apply IH. exact H2.
Qed.

Lemma not_contains_count (s p : string) :
  contains s p = false -> count s p = 0%Z.
Proof.
  intro H. unfold count. destruct p as [|c p].
  - destruct s; discriminate H.
  - rewrite (not_contains_count_from s (String c p) H). reflexivity.
Qed.

(** X7. "fake news" is the only way to a negative text score: when the
    lowercased text of url and content does not hold that phrase, the text
    score lies between 0 and 1. *)
Theorem text_score_nonneg_without_fake_news (url content : string) :
  contains (lower (url ++ " " ++ content)) "fake news" = false ->
  0 <= _analyze_text_for_bias url content /\
  _analyze_text_for_bias url content <= 1.
Proof.
  intro H. split; [|apply text_score_at_most_one].
  unfold _analyze_text_for_bias. apply py_min_lower.
  set (text := lower (url ++ " " ++ content)) in *.
  assert (K : 0 <= keyword_frequency text).
  { unfold keyword_frequency, sensational_keywords.
    cbn [fold_left]. unfold keyword_step. cbn [fst snd].
    rewrite (not_contains_count text "fake news" H).
    pose proof (float_of_int_nonneg _ (count_nonneg text "shocking")).
    pose proof (float_of_int_nonneg _ (count_nonneg text "exclusive")).
    pose proof (float_of_int_nonneg _ (count_nonneg text "must see")).
    pose proof (float_of_int_nonneg _ (count_nonneg text "disaster")).
    pose proof (float_of_int_nonneg _ (count_nonneg text "scam")).
    pose proof (float_of_int_nonneg _ (count_nonneg text "truth")).
    pose proof (float_of_int_nonneg _ (count_nonneg text "exposed")).
    pose proof (float_of_int_nonneg _ (count_nonneg text "viral")).
    change (float_of_int 0) with (0 # 1). lra. }
  assert (B : 0 <= bias_score url content).
  { unfold bias_score. fold text.
    destruct (low_authority_domain url); destruct (misinformation_pattern url);
      lra. }
  apply Qle_shift_div_l; [reflexivity | lra].
Qed.

Lemma text_score_nonneg_without_fake_news_witness :
  0 <= _analyze_text_for_bias "http://rumor.blogspot.com/exposed" "Shocking truth".
Proof.
  destruct (text_score_nonneg_without_fake_news
              "http://rumor.blogspot.com/exposed" "Shocking truth") as [H _];
    [reflexivity | exact H].
Defined.

(** ** What leaves the endpoint /check *)

Section EndpointFailures.

Variable int_of_str : string -> option Z.
Variable float_of_str : string -> option Q.

Lemma coerce_image_features_never_value_error
    (file_size_kb noise_factor : PyValue) (e : Exception) :
  coerce_image_features int_of_str float_of_str file_size_kb noise_factor
  = Raises e -> e = OverflowError.
Proof.
  unfold coerce_image_features.
  destruct (negb (is_none file_size_kb) && negb (is_none noise_factor));
    [|discriminate].
  destruct (py_int int_of_str file_size_kb) as [size | e1].
  - destruct (py_float float_of_str noise_factor) as [noise | e2].
    + discriminate.
    + destruct e2; cbn [except_value_or_type_error]; intro H;
        try discriminate H; inversion H; reflexivity.
  - destruct e1; cbn [except_value_or_type_error]; intro H;
      try discriminate H; inversion H; reflexivity.
Qed.

(** X8. Whatever the JSON object holds, no [ValueError] leaves the handler
    of /check, and a [TypeError] leaves it only when [url] or [content] is
    not a string: the image fields never cause one. *)
Theorem run_false_news_check_failures
    (data : list (string * PyValue)) (g : Generator) :
  fst (run_false_news_check int_of_str float_of_str data g) <> Raises ValueError /\
  (fst (run_false_news_check int_of_str float_of_str data g) = Raises TypeError ->
   (forall s, dict_get data "url" (PyStr "URL Not Provided") <> PyStr s) \/
   (forall s, dict_get data "content" (PyStr "") <> PyStr s)).
Proof.
  unfold run_false_news_check.
  destruct (coerce_image_features int_of_str float_of_str
              (dict_get data "file_size_kb" PyNone)
              (dict_get data "noise_factor" PyNone)) as [features | e] eqn:C.
  - destruct (dict_get data "url" (PyStr "URL Not Provided")) as [| | | |u| |];
      try (cbn [fst]; split; [discriminate | intros _; left; discriminate]).
    destruct (dict_get data "content" (PyStr "")) as [| | | |c| |];
      try (cbn [fst]; split; [discriminate | intros _; right; discriminate]).
    destruct (App.check u features c g). cbn [fst].
    split; [discriminate | intro H; discriminate H].
  - apply coerce_image_features_never_value_error in C. subst e. cbn [fst].
    split; [discriminate | intro H; discriminate H].
Qed.

End EndpointFailures.

(** * src/Business.py and the category pages of src/app.py *)

Lemma api_category_of_service (category : string) :
  In (api_category_of category) service_categories.
Proof.
  unfold api_category_of, service_categories. cbn [existsb].
  destruct (String.eqb_spec category "business") as [->|_];
    [cbn; tauto|].
  destruct (String.eqb_spec category "entertainment") as [->|_];
    [cbn; tauto|].
  destruct (String.eqb_spec category "health") as [->|_];
    [cbn; tauto|].
  destruct (String.eqb_spec category "science") as [->|_];
    [cbn; tauto|].
  destruct (String.eqb_spec category "sports") as [->|_];
    [cbn; tauto|].
  destruct (String.eqb_spec category "technology") as [->|_];
    [cbn; tauto|].
  cbn. tauto.
Qed.

(** X9. Whatever category it is given, [get_news] asks the service for one
    of its seven categories only, in English: two clients that answer alike
    on those give the same list, and the same page. *)
Theorem get_news_asks_service_categories_only
    (client1 client2 : NewsApiClient) (today name : string)
    (category country : string) (pagesize : Z) :
  (forall c country' n, In c service_categories ->
     client1 c "en" country' n = client2 c "en" country' n) ->
  get_news (Some client1) category country pagesize
    = get_news (Some client2) category country pagesize /\
  render_category_page (Some client1) today name category
    = render_category_page (Some client2) today name category.
Proof.
  intro H.
  assert (G : forall cat ctry n,
             get_news (Some client1) cat ctry n = get_news (Some client2) cat ctry n).
  { intros cat ctry n. unfold get_news, fetch_articles.
    rewrite (H _ ctry n (api_category_of_service cat)). reflexivity. }
  split; [apply G|].
  unfold render_category_page. rewrite G. reflexivity.
Qed.

Lemma get_news_asks_service_categories_only_witness :
  get_news
    (Some (fun c _ _ _ =>
             if String.eqb c "World News" then None
             else Some (PyDict [("articles", PyList [])])))
    "World News" "us" 15
  = get_news (Some (fun _ _ _ _ => Some (PyDict [("articles", PyList [])])))
      "World News" "us" 15.
Proof.
  refine (proj1 (get_news_asks_service_categories_only
                   (fun c _ _ _ =>
                      if String.eqb c "World News" then None
                      else Some (PyDict [("articles", PyList [])]))
                   (fun _ _ _ _ => Some (PyDict [("articles", PyList [])]))
                   "" "" "World News" "us" 15 _)).
  intros c country' n Hc.
  destruct (String.eqb_spec c "World News") as [->|_]; [|reflexivity].
  exfalso. cbn in Hc.
  repeat (destruct Hc as [Hc | Hc]; [discriminate Hc|]). exact Hc.
Defined.

Lemma article_entries_well_formed (category : string) (items : list PyValue) :
  forallb well_formed_article items = true ->
  exists entries,
    article_entries category items = Some entries /\
    length entries = length items /\
    forall entry, In entry entries ->
      map fst entry
        = ["title"; "url"; "source"; "description"; "image_url"; "category"] /\
      dict_get entry "category" PyNone
        = PyStr (replace (lower category) " " "-").
Proof.
  induction items as [|article rest IH]; intro H.
  - exists []. split; [reflexivity|]. split; [reflexivity|]. intros e [].
  - cbn [forallb] in H. apply andb_true_iff in H. destruct H as [W H].
    destruct (IH H) as (entries & E & L & P).
    unfold well_formed_article in W.
    destruct article as [| | | | | |a]; try discriminate W.
    destruct (dict_get a "source" (PyDict [])) as [| | | | | |src] eqn:S;
      try discriminate W.
    cbn [article_entries article_entry]. rewrite S. cbn [py_get]. rewrite E.
    eexists. split; [reflexivity|]. split; [cbn [length]; rewrite L; reflexivity|].
    intros entry [<- | I]; [split; reflexivity | apply P; exact I].
Qed.

Lemma article_entries_malformed (category : string) (items : list PyValue) :
  forallb well_formed_article items = false ->
  article_entries category items = None.
Proof.
  induction items as [|article rest IH]; intro H; [discriminate H|].
  cbn [forallb] in H. cbn [article_entries].
  destruct (article_entry category article) as [entry|] eqn:A; [|reflexivity].
  assert (W : well_formed_article article = true).
  { unfold article_entry in A. unfold well_formed_article.
    destruct article as [| | | | | |a]; try discriminate A.
    destruct (dict_get a "source" (PyDict [])); try discriminate A. reflexivity. }
  rewrite W in H. cbn [andb] in H. rewrite (IH H). reflexivity.
Qed.

(** X10. When the service answers with a list of articles, [get_news]
    returns one entry per article, each with the six keys of the template
    and the category label, provided every article is a dict whose "source"
    is a dict; a single article that is not makes it return the one error
    entry instead of the list. *)
Theorem get_news_on_article_list
    (client : NewsApiClient) (category country : string) (pagesize : Z)
    (top_headlines : Dict) (items : list PyValue) :
  client (api_category_of category) "en" country pagesize
    = Some (PyDict top_headlines) ->
  dict_get top_headlines "articles" (PyList []) = PyList items ->
  (forallb well_formed_article items = true ->
   length (get_news (Some client) category country pagesize) = length items /\
   forall entry, In entry (get_news (Some client) category country pagesize) ->
     map fst entry
       = ["title"; "url"; "source"; "description"; "image_url"; "category"] /\
     dict_get entry "category" PyNone
       = PyStr (replace (lower category) " " "-")) /\
  (forallb well_formed_article items = false ->
   get_news (Some client) category country pagesize
     = [fetch_error_entry category]).
Proof.
  intros HC HA. unfold get_news, fetch_articles.
  rewrite HC. cbn [py_get]. rewrite HA. cbn [py_iter].
  split; intro W.
  - destruct (article_entries_well_formed category items W) as (entries & E & L & P).
    rewrite E. split; [exact L | exact P].
  - rewrite (article_entries_malformed category items W). reflexivity.
Qed.

Lemma get_news_on_article_list_witness :
  get_news
    (Some (fun _ _ _ _ =>
       Some (PyDict [("articles",
          PyList [ PyDict [("title", PyStr "A"); ("source", PyDict [("name", PyStr "S")])];
                   PyDict [("title", PyStr "B"); ("source", PyNone)] ])])))
    "World News" "us" 15
  = [fetch_error_entry "World News"].
Proof.
  refine (proj2 (get_news_on_article_list
                   (fun _ _ _ _ =>
       Some (PyDict [("articles",
          PyList [ PyDict [("title", PyStr "A"); ("source", PyDict [("name", PyStr "S")])];
                   PyDict [("title", PyStr "B"); ("source", PyNone)] ])]))
                   "World News" "us" 15 _ _ eq_refl eq_refl) _).
  reflexivity.
Defined.

(** X11. [get_news] always returns a list, never an empty one on failure:
    without a client, when the call raises, and when the answer is not a
    dict or its "articles" cannot be iterated, the list holds exactly one
    entry, tagged "Error" and linked to "#". *)
Theorem get_news_failure_entry
    (client : NewsApiClient) (category country : string) (pagesize : Z) :
  (exists entry,
     get_news None category country pagesize = [entry] /\
     dict_get entry "category" PyNone = PyStr "Error" /\
     dict_get entry "url" PyNone = PyStr "#") /\
  ((client (api_category_of category) "en" country pagesize = None \/
    (exists answer,
       client (api_category_of category) "en" country pagesize = Some answer /\
       (py_get answer "articles" (PyList []) = None \/
        exists bad, py_get answer "articles" (PyList []) = Some bad /\
                    py_iter bad = None))) ->
   get_news (Some client) category country pagesize = [fetch_error_entry category] /\
   dict_get (fetch_error_entry category) "category" PyNone = PyStr "Error" /\
   dict_get (fetch_error_entry category) "url" PyNone = PyStr "#").
Proof.
  split.
  - eexists. split; [reflexivity|]. split; reflexivity.
  - intro H. split; [|split; reflexivity].
    unfold get_news, fetch_articles.
    destruct H as [H | (answer & H & [G | (bad & G & B)])]; rewrite H.
    + reflexivity.
    + rewrite G. reflexivity.
    + rewrite G, B. reflexivity.
Qed.

Lemma get_news_failure_entry_witness :
  get_news (Some (fun _ _ _ _ => Some (PyDict [("articles", PyNone)])))
    "sports" "us" 15
  = [fetch_error_entry "sports"].
Proof.
  refine (proj1 (proj2 (get_news_failure_entry
                          (fun _ _ _ _ => Some (PyDict [("articles", PyNone)]))
                          "sports" "us" 15) _)).
  right. eexists. split; [reflexivity|]. right.
  eexists. split; reflexivity.
Defined.

(** ** Labels and display names *)


Lemma replace_char_nil (a b : ascii) :
  replace "" (String a "") (String b "") = "".
Proof. reflexivity. Qed.





















(** * Summaries: summarize_article and /api/summarize of src/app.py *)

Section SummaryProperties.

Variable run_article : PyValue -> ArticleRun.

Lemma or_default_nonempty (x default : string) :
  default <> "" -> or_default x default <> "".
Proof.
  intro H. unfold or_default. destruct (String.eqb_spec x ""); assumption.
Qed.

Lemma before_first_space_no_space (s : string) :
  all_chars not_space (before_first_space s) = true.
Proof.
  induction s as [|c s IH]; [reflexivity|].
  cbn [before_first_space]. destruct (Ascii.eqb c " ") eqn:E; [reflexivity|].
  cbn [all_chars]. unfold not_space at 1. rewrite E, IH. reflexivity.
Qed.

(** X15. Every answer of /api/summarize carries the status 200, 400 or 500;
    with 200 the body has the four keys title, authors, summary and date,
    with any other status it has the single key error; 500 is reserved for
    an exception of the article library that is no [ArticleException]. *)
Theorem api_summarize_status (is_json : bool) (data : Dict) :
  let body := fst (api_summarize run_article is_json data) in
  let status := snd (api_summarize run_article is_json data) in
  (status = 200 /\ map fst body = ["title"; "authors"; "summary"; "date"] \/
   status = 400 /\ map fst body = ["error"] \/
   status = 500 /\ map fst body = ["error"])%Z /\
  (status = 500%Z ->
   exists e, run_article (dict_get data "url" PyNone) = RaisesOtherException e).
Proof.
  cbv zeta. unfold api_summarize, summarize_article.
  destruct is_json; cbn [negb fst snd].
  2: { split; [right; left; split; reflexivity | discriminate]. }
  destruct (py_truthy (dict_get data "url" PyNone)); cbn [negb fst snd].
  2: { split; [right; left; split; reflexivity | discriminate]. }
  destruct (run_article (dict_get data "url" PyNone)) as [e | e | | article];
    cbn [fst snd map].
  - split; [right; left; split; reflexivity | discriminate].
  - split; [right; right; split; reflexivity | intros _; exists e; reflexivity].
  - split; [right; left; split; reflexivity | discriminate].
  - split; [left; split; reflexivity | discriminate].
Qed.

(** X16. In an answer of /api/summarize with status 200 none of title,
    authors and summary is empty, and date holds no space. *)
Theorem api_summarize_fields (is_json : bool) (data : Dict) :
  snd (api_summarize run_article is_json data) = 200%Z ->
  exists t a s d : string,
    fst (api_summarize run_article is_json data)
    = [ ("title", PyStr t); ("authors", PyStr a); ("summary", PyStr s);
        ("date", PyStr d) ] /\
    t <> "" /\ a <> "" /\ s <> "" /\ all_chars not_space d = true.
Proof.
  unfold api_summarize, summarize_article.
  destruct is_json; cbn [negb fst snd]; [|discriminate].
  destruct (py_truthy (dict_get data "url" PyNone)); cbn [negb fst snd];
    [|discriminate].
  destruct (run_article (dict_get data "url" PyNone)) as [e | e | | article];
    cbn [fst snd]; try discriminate.
  intros _. do 4 eexists. split; [reflexivity|].
  split; [apply or_default_nonempty; discriminate|].
  split; [apply or_default_nonempty; discriminate|].
  split; [apply or_default_nonempty; discriminate|].
  destruct (article_publish_date article);
    [apply before_first_space_no_space | reflexivity].
Qed.

End SummaryProperties.

Lemma api_summarize_fields_witness :
  exists t a s d : string,
    fst (api_summarize
           (fun _ => Extracted (mkArticle "" [""] "" (Some "2024-03-05 10:00:00")))
           true [("url", PyStr "http://example.com/a")])
    = [ ("title", PyStr t); ("authors", PyStr a); ("summary", PyStr s);
        ("date", PyStr d) ] /\
    t <> "" /\ a <> "" /\ s <> "" /\ all_chars not_space d = true.
Proof.
  apply (api_summarize_fields
           (fun _ => Extracted (mkArticle "" [""] "" (Some "2024-03-05 10:00:00")))
           true [("url", PyStr "http://example.com/a")]).
  reflexivity.
Defined.

Lemma run_article_cases (run : PyValue -> ArticleRun) (url : PyValue) :
  (exists e, run url = RaisesArticleException e) \/
  (exists e, run url = RaisesOtherException e) \/
  run url = EmptyHtml \/
  (exists a, run url = Extracted a).
Proof.
  destruct (run url) as [e | e | | a]; eauto.
Qed.

(** X17. /api/summarize hands the article library a url only when the url
    is truthy: two libraries that agree on truthy urls give the same
    answers; and the message "URL cannot be empty." of [summarize_article]
    is never what the endpoint answers. *)
Theorem api_summarize_guards_library
    (run1 run2 : PyValue -> ArticleRun) (is_json : bool) (data : Dict) :
  ((forall url, py_truthy url = true -> run1 url = run2 url) ->
   api_summarize run1 is_json data = api_summarize run2 is_json data) /\
  fst (api_summarize run1 is_json data)
    <> [("error", PyStr "URL cannot be empty.")] /\
  fst (summarize_article run1 (PyStr ""))
    = [("error", PyStr "URL cannot be empty.")].
Proof.
  split; [|split; [|reflexivity]].
  - intro H. unfold api_summarize, summarize_article.
    destruct is_json; cbn [negb]; [|reflexivity].
    destruct (py_truthy (dict_get data "url" PyNone)) eqn:T; cbn [negb];
      [|reflexivity].
    rewrite (H _ T). reflexivity.
  - unfold api_summarize, summarize_article.
    destruct is_json; cbn [negb fst]; [|discriminate].
    destruct (py_truthy (dict_get data "url" PyNone)); cbn [negb fst];
      [|discriminate].
    destruct (run_article_cases run1 (dict_get data "url" PyNone))
      as [[e E] | [[e E] | [E | [a E]]]]; rewrite E; cbn [fst]; discriminate.
Qed.

Lemma api_summarize_guards_library_witness :
  api_summarize (fun url => if py_truthy url then EmptyHtml
                            else RaisesOtherException "unreachable")
                true [("url", PyStr "")]
  = api_summarize (fun _ => EmptyHtml) true [("url", PyStr "")].
Proof.
  refine (proj1 (api_summarize_guards_library
                   (fun url => if py_truthy url then EmptyHtml
                               else RaisesOtherException "unreachable")
                   (fun _ => EmptyHtml) true [("url", PyStr "")]) _).
  intros url T. rewrite T. reflexivity.
Defined.

(** * Sentiment: get_sentiment_prediction and /api/sentiment of src/app.py *)

Lemma lstrip_all_space (s : string) :
  all_chars is_space s = true -> lstrip s = "".
Proof.
  induction s as [|c s IH]; intro H; [reflexivity|].
  cbn [all_chars] in H. apply andb_true_iff in H. destruct H as [H1 H2].
  cbn [lstrip]. rewrite H1. apply IH. exact H2.
Qed.

Lemma lstrip_empty (s : string) :
  lstrip s = "" -> all_chars is_space s = true.
Proof.
  induction s as [|c s IH]; intro H; [reflexivity|].
  cbn [lstrip] in H. cbn [all_chars].
  destruct (is_space c); [apply IH; exact H | discriminate H].
Qed.

Lemma lstrip_head (s : string) (c : ascii) (t : string) :
  lstrip s = String c t -> is_space c = false.
Proof.
  induction s as [|d s IH]; intro H; [discriminate H|].
  cbn [lstrip] in H. destruct (is_space d) eqn:E.
  - apply IH. exact H.
  - inversion H. subst. exact E.
Qed.

Lemma rstrip_empty (s : string) :
  rstrip s = "" -> all_chars is_space s = true.
Proof.
  induction s as [|c s IH]; intro H; [reflexivity|].
  cbn [rstrip] in H. cbn [all_chars].
  destruct (rstrip s) as [|d r]; [|discriminate H].
  destruct (is_space c); [apply IH; reflexivity | discriminate H].
Qed.

Lemma strip_empty_iff (s : string) :
  strip s = "" <-> all_chars is_space s = true.
Proof.
  unfold strip. split; intro H.
  - apply rstrip_empty in H.
    destruct (lstrip s) as [|c t] eqn:L; [apply lstrip_empty; exact L|].
    apply lstrip_head in L. cbn [all_chars] in H. rewrite L in H. discriminate H.
  - rewrite (lstrip_all_space s H). reflexivity.
Qed.

Section SentimentProperties.

Variable predict : string -> Z.

(** X18. For a text of whitespace only, the empty text included,
    [get_sentiment_prediction] answers "N/A" without consulting the
    classifier; for any other text it never answers "N/A": it answers
    "Positive" exactly when the predicted label is 1, "Negative" exactly
    when it is -1, and "Neutral" for every other label. *)
Theorem sentiment_of_text (s : string) :
  (all_chars is_space s = true ->
   forall any_predict : string -> Z,
     get_sentiment_prediction any_predict (PyStr s) = Some sentiment_not_available) /\
  (all_chars is_space s = false ->
   exists result,
     get_sentiment_prediction predict (PyStr s) = Some result /\
     sentiment_of result <> PyStr "N/A" /\
     (sentiment_of result = PyStr "Positive" <-> predict s = 1%Z) /\
     (sentiment_of result = PyStr "Negative" <-> predict s = (-1)%Z) /\
     (sentiment_of result = PyStr "Neutral"
      <-> predict s <> 1%Z /\ predict s <> (-1)%Z)).
Proof.
  split.
  - intros H any_predict. unfold get_sentiment_prediction.
    destruct (py_truthy (PyStr s)); cbn [negb]; [|reflexivity].
    apply strip_empty_iff in H. rewrite H. reflexivity.
  - intro H. unfold get_sentiment_prediction.
    assert (N : s <> "") by (intro E; subst s; discriminate H).
    assert (S : strip s <> "").
    { intro E. apply strip_empty_iff in E. congruence. }
    cbn [py_truthy].
    apply String.eqb_neq in N. apply String.eqb_neq in S.
    rewrite N, S. cbn [negb].
    destruct (Z.eqb_spec (predict s) 1) as [E1 | E1].
    + eexists. split; [reflexivity|]. unfold sentiment_of. cbn.
      repeat split; intros; try discriminate; try lia; try reflexivity.
      all: destruct H0; congruence.
    + destruct (Z.eqb_spec (predict s) (-1)) as [E2 | E2].
      * eexists. split; [reflexivity|]. unfold sentiment_of. cbn.
        repeat split; intros; try discriminate; try lia; try reflexivity.
        all: destruct H0; congruence.
      * eexists. split; [reflexivity|]. unfold sentiment_of. cbn.
        repeat split; intros; try discriminate; try lia; try reflexivity;
          try congruence.
Qed.


End SentimentProperties.

Lemma sentiment_of_text_witness :
  get_sentiment_prediction (fun _ => 1%Z) (PyStr "   ") = Some sentiment_not_available /\
  exists result,
    get_sentiment_prediction (fun _ => 7%Z) (PyStr " fine ") = Some result /\
    sentiment_of result = PyStr "Neutral".
Proof.
  split.
  - apply (proj1 (sentiment_of_text (fun _ => 0%Z) "   ")). reflexivity.
  - destruct (proj2 (sentiment_of_text (fun _ => 7%Z) " fine ") eq_refl)
      as (result & R & _ & _ & _ & N).
    exists result. split; [exact R|]. apply N. split; discriminate.
Defined.


(** * The command-line program of src/falseNewsChecker.py *)

Section CommandLineProperties.

Variable int_of_str : string -> option Z.
Variable float_of_str : string -> option Q.

Lemma app_three_last (A : Type) (l : list A) (a b c : A) :
  (((l ++ [a]) ++ [b]) ++ [c] = l ++ [a; b; c])%list.
Proof. rewrite <- !app_assoc. reflexivity. Qed.

Lemma run_analysis_ran_check (url content : string)
    (image_features : option (Z * Q)) (c : Console) (g : Generator) :
  ran_check (Some (run_analysis url content image_features c g))
    url image_features content g (stdin c).
Proof.
  unfold ran_check, run_analysis.
  destruct (Cli.check url image_features content g) as [report g'].
  unfold print, closing_lines. cbn [fst snd stdin stdout].
  eexists. f_equal. f_equal. f_equal. apply app_three_last.
Qed.

(** X20. The program reads only what it needs and never stops on a bad
    number. With an answer other than "yes" (in any letter case) it reads
    three lines and analyses the text alone; after "yes", a file size that
    is no integer ends the questions at once (the noise factor is not
    asked for) and a noise factor that is no number ends them too, both
    with the text-only analysis; only two valid numbers give [check] the
    image features. *)
Theorem main_reads_image_features
    (url content answer : string) (rest : list string) (g : Generator) :
  let run := main int_of_str float_of_str in
  (lower answer <> "yes" ->
   ran_check (run (mkConsole (url :: content :: answer :: rest) []) g)
     url None content g rest) /\
  (lower answer = "yes" ->
   forall size_line rest',
     rest = size_line :: rest' ->
     int_of_str size_line = None ->
     ran_check (run (mkConsole (url :: content :: answer :: rest) []) g)
       url None content g rest') /\
  (lower answer = "yes" ->
   forall size_line noise_line rest' file_size_kb,
     rest = size_line :: noise_line :: rest' ->
     int_of_str size_line = Some file_size_kb ->
     (float_of_str noise_line = None ->
      ran_check (run (mkConsole (url :: content :: answer :: rest) []) g)
        url None content g rest') /\
     (forall noise_factor,
        float_of_str noise_line = Some noise_factor ->
        ran_check (run (mkConsole (url :: content :: answer :: rest) []) g)
          url (Some (file_size_kb, noise_factor)) content g rest')).
Proof.
  cbv zeta. unfold main. cbn [input print stdin stdout app].
  split; [|split].
  - intro H. apply String.eqb_neq in H. rewrite H.
    apply (run_analysis_ran_check url content None).
  - intros H size_line rest' -> P. rewrite H. cbn [String.eqb Ascii.eqb Bool.eqb].
    unfold ask_image_features. cbn [input print stdin stdout app]. rewrite P.
    apply (run_analysis_ran_check url content None).
  - intros H size_line noise_line rest' file_size_kb -> P.
    rewrite H. cbn [String.eqb Ascii.eqb Bool.eqb].
    unfold ask_image_features. cbn [input print stdin stdout app]. rewrite P.
    cbn [input print stdin stdout app].
    split.
    + intro F. rewrite F. apply (run_analysis_ran_check url content None).
    + intros noise_factor F. rewrite F.
      apply (run_analysis_ran_check url content (Some (file_size_kb, noise_factor))).
Qed.

End CommandLineProperties.

Lemma main_reads_image_features_witness :
  ran_check
    (main (fun s => if String.eqb s "50" then Some 50%Z else None)
          (fun s => if String.eqb s "0.9" then Some 0.9 else None)
          (mkConsole ["http://example.com"; "viral"; "YES"; "fifty"; "0.9"] [])
          (constant_generator 0.5))
    "http://example.com" None "viral" (constant_generator 0.5) ["0.9"].
Proof.
  destruct (main_reads_image_features
              (fun s => if String.eqb s "50" then Some 50%Z else None)
              (fun s => if String.eqb s "0.9" then Some 0.9 else None)
              "http://example.com" "viral" "YES" ["fifty"; "0.9"]
              (constant_generator 0.5)) as (_ & H & _).
  apply (H eq_refl "fifty" ["0.9"] eq_refl eq_refl).
Defined.
